(** * TN-boards: the split-viewport 3D product showcase

    A shallow embedding of the three variants of [ProductShowcase]:

    - [Placeholder]: assets/three-product-showcase.js, first document
      (scroll-driven, placeholder models built synchronously);
    - [Loader]: assets/three-product-showcase.js, second document
      (scroll-driven, models fetched by GLTFLoader, per-frame camera aspect);
    - [Hover]: the hover-driven variant (idle rotation frozen while hovered).

    The object [this] becomes a record that every method takes and returns.
    The browser and three.js are modelled by what the code observes of them:
    the frame-callback queue, the renderer's viewport / scissor registers and
    its list of draw calls, the camera's aspect and projection. *)

From Stdlib Require Import ZArith QArith Qround Qpower Qabs Lqa Lia.
From stdpp Require Import base list strings.

Local Open Scope Z_scope.

(** ** JavaScript numbers *)

(** A JavaScript number is either finite or one of the three special values
    of IEEE 754.  Finite values are kept as exact rationals: rounding to
    binary64 is not modelled, and neither is the sign of zero (every zero
    divisor of the program is the difference or the half of two integers,
    hence [+0]). *)
Module JS.

Inductive number : Type :=
  | Fin (q : Q)
  | PosInf
  | NegInf
  | NaN.

Definition of_Z (z : Z) : number := Fin (inject_Z z).

Definition neg (x : number) : number :=
  match x with
  | Fin q => Fin (- q)
  | PosInf => NegInf
  | NegInf => PosInf
  | NaN => NaN
  end.

Definition add (x y : number) : number :=
  match x, y with
  | NaN, _ | _, NaN => NaN
  | Fin a, Fin b => Fin (a + b)
  | PosInf, NegInf | NegInf, PosInf => NaN
  | PosInf, _ | _, PosInf => PosInf
  | NegInf, _ | _, NegInf => NegInf
  end.

Definition sub (x y : number) : number := add x (neg y).

(** The infinity carrying the sign [c] of a finite factor; [0 * Infinity]
    is [NaN]. *)
Definition signed_inf (c : comparison) (positive : bool) : number :=
  match c with
  | Eq => NaN
  | Gt => if positive then PosInf else NegInf
  | Lt => if positive then NegInf else PosInf
  end.

Definition mul (x y : number) : number :=
  match x, y with
  | NaN, _ | _, NaN => NaN
  | Fin a, Fin b => Fin (a * b)
  | Fin a, PosInf | PosInf, Fin a => signed_inf (a ?= 0)%Q true
  | Fin a, NegInf | NegInf, Fin a => signed_inf (a ?= 0)%Q false
  | PosInf, PosInf | NegInf, NegInf => PosInf
  | PosInf, NegInf | NegInf, PosInf => NegInf
  end.

(** [x / y]: a finite non-zero value over zero is an infinity, [0 / 0] is
    [NaN]; no exception is ever raised. *)
Definition div (x y : number) : number :=
  match x, y with
  | NaN, _ | _, NaN => NaN
  | Fin a, Fin b =>
      match (b ?= 0)%Q with
      | Eq => signed_inf (a ?= 0)%Q true
      | _ => Fin (a / b)
      end
  | Fin _, (PosInf | NegInf) => Fin 0
  | PosInf, Fin b => match (b ?= 0)%Q with Lt => NegInf | _ => PosInf end
  | NegInf, Fin b => match (b ?= 0)%Q with Lt => PosInf | _ => NegInf end
  | (PosInf | NegInf), (PosInf | NegInf) => NaN
  end.

(** [Math.min] and [Math.max]: [NaN] as soon as one argument is [NaN]. *)
Definition min (x y : number) : number :=
  match x, y with
  | NaN, _ | _, NaN => NaN
  | NegInf, _ | _, NegInf => NegInf
  | PosInf, z | z, PosInf => z
  | Fin a, Fin b => Fin (if Qle_bool a b then a else b)
  end.

Definition max (x y : number) : number :=
  match x, y with
  | NaN, _ | _, NaN => NaN
  | PosInf, _ | _, PosInf => PosInf
  | NegInf, z | z, NegInf => z
  | Fin a, Fin b => Fin (if Qle_bool a b then b else a)
  end.

(** [Math.floor] on a finite value. *)
Definition floor (q : Q) : Z := Qfloor q.

(** The value is a real number of the closed interval [lo, hi]. *)
Definition within (lo hi : Q) (x : number) : Prop :=
  match x with
  | Fin q => (lo <= q <= hi)%Q
  | _ => False
  end.

Definition is_finite (x : number) : bool :=
  match x with Fin _ => true | _ => false end.

(** [x === y] on numbers: [NaN] equals nothing, itself included. *)
Definition eqb (x y : number) : bool :=
  match x, y with
  | Fin a, Fin b => Qeq_bool a b
  | PosInf, PosInf | NegInf, NegInf => true
  | _, _ => false
  end.

(** Sparse arrays: [a[i] = v] past the end extends the array and leaves
    holes, which read as [undefined]. *)
Definition array (A : Type) : Type := list (option A).

Definition get {A} (a : array A) (i : nat) : option A := mjoin (a !! i).

Fixpoint set {A} (a : array A) (i : nat) (v : A) : array A :=
  match i, a with
  | O, [] => [Some v]
  | O, _ :: t => Some v :: t
  | S j, [] => None :: set [] j v
  | S j, h :: t => h :: set t j v
  end.

(** [a.forEach(f)] visits the elements in index order and skips holes. *)
Fixpoint forEach {A S} (f : A -> nat -> S -> S) (a : array A) (i : nat) (s : S) : S :=
  match a with
  | [] => s
  | None :: t => forEach f t (Datatypes.S i) s
  | Some x :: t => forEach f t (Datatypes.S i) (f x i s)
  end.

End JS.

(** ** What the program uses of three.js *)
Module Three.

(** The argument of [setViewport] / [setScissor]: lower-left corner and
    size, in CSS pixels, origin at the bottom left of the surface. *)
Record Rect : Type := mkRect { rx : Z; ry : Z; rw : Z; rh : Z }.

(** [PerspectiveCamera]: [aspect] is the field the program assigns,
    [projection] the aspect baked into the projection matrix by the last
    [updateProjectionMatrix()] (the constructor calls it as well). *)
Record Camera : Type := mkCamera { aspect : JS.number; projection : JS.number }.

Definition newCamera (a : JS.number) : Camera := mkCamera a a.
Definition setAspect (a : JS.number) (c : Camera) : Camera := mkCamera a (projection c).
Definition updateProjectionMatrix (c : Camera) : Camera := mkCamera (aspect c) (aspect c).

(** One [renderer.render(scene, camera)]: which entry of [this.scenes]
    was passed, the renderer registers and the camera projection in force. *)
Record DrawCall : Type := mkDraw {
  dc_scene : nat;
  dc_viewport : Rect;
  dc_scissor : Rect;
  dc_scissorTest : bool;
  dc_projection : JS.number
}.

Record Renderer : Type := mkRenderer {
  size : Z * Z;
  viewport : Rect;
  scissor : Rect;
  scissorTest : bool;
  disposed : bool;
  drawn : list DrawCall
}.

(** A fresh [WebGLRenderer]: scissor test off, nothing drawn. *)
Definition newRenderer (w h : Z) : Renderer :=
  mkRenderer (w, h) (mkRect 0 0 w h) (mkRect 0 0 w h) false false [].

Definition setSize (w h : Z) (r : Renderer) : Renderer :=
  mkRenderer (w, h) (mkRect 0 0 w h) (scissor r) (scissorTest r) (disposed r) (drawn r).
Definition setScissorTest (b : bool) (r : Renderer) : Renderer :=
  mkRenderer (size r) (viewport r) (scissor r) b (disposed r) (drawn r).
Definition setViewport (x y w h : Z) (r : Renderer) : Renderer :=
  mkRenderer (size r) (mkRect x y w h) (scissor r) (scissorTest r) (disposed r) (drawn r).
Definition setScissor (x y w h : Z) (r : Renderer) : Renderer :=
  mkRenderer (size r) (viewport r) (mkRect x y w h) (scissorTest r) (disposed r) (drawn r).
Definition dispose (r : Renderer) : Renderer :=
  mkRenderer (size r) (viewport r) (scissor r) (scissorTest r) true (drawn r).

(** [renderer.render(this.scenes[i], camera)] for a scene that exists. *)
Definition render (i : nat) (c : Camera) (r : Renderer) : Renderer :=
  mkRenderer (size r) (viewport r) (scissor r) (scissorTest r) (disposed r)
    (drawn r ++ [mkDraw i (viewport r) (scissor r) (scissorTest r) (projection c)]).

(** The root node of a panel's model: the placeholder [Group] or the
    [animationGroup] wrapping a loaded asset.  [freed] records that
    [dispose()] ran on the geometries and materials below it. *)
Inductive ModelKind : Type := PlaceholderModel | LoadedModel.

Record Model : Type := mkModel {
  kind : ModelKind;
  rotation_x : JS.number;
  rotation_y : JS.number;
  rotation_z : JS.number;
  freed : bool
}.

(** A scene holds its lights, by name, and references to the models added
    to it; the models themselves live in the instance's object store, where
    [this.models] reaches them too. *)
Inductive Child : Type :=
  | Light (name : string)
  | ModelRef (handle : nat).

Record Scene : Type := mkScene { accentColor : string; children : list Child }.

Definition sceneAdd (c : Child) (s : Scene) : Scene :=
  mkScene (accentColor s) (children s ++ [c]).

End Three.

(** ** Viewport layout *)

(** A pixel of the drawing surface. *)
Definition Pixel : Type := (Z * Z)%type.

Definition inRect (r : Three.Rect) (p : Pixel) : Prop :=
  Three.rx r <= fst p < Three.rx r + Three.rw r /\
  Three.ry r <= snd p < Three.ry r + Three.rh r.

Definition inSurface (width height : Z) (p : Pixel) : Prop :=
  0 <= fst p < width /\ 0 <= snd p < height.

(** [Math.floor(n / 2)] for an integer [n]. *)
Definition half (n : Z) : Z := JS.floor (inject_Z n / 2).

(** The two rectangles [render] passes to [setViewport] and [setScissor],
    first panel then second panel (the same in the three variants). *)
Definition regions (isMobile : bool) (width height : Z) : Three.Rect * Three.Rect :=
  if isMobile then
    let halfHeight := half height in
    (Three.mkRect 0 halfHeight width halfHeight, Three.mkRect 0 0 width halfHeight)
  else
    let halfWidth := half width in
    (Three.mkRect 0 0 halfWidth height, Three.mkRect halfWidth 0 halfWidth height).

(** [window.innerWidth < 768], as evaluated by the constructor and [onResize]. *)
Definition isMobileFor (innerWidth : Z) : bool := innerWidth <? 768.

(** The extent of the surface along the split axis. *)
Definition splitExtent (isMobile : bool) (width height : Z) : Z :=
  if isMobile then height else width.

(** The coordinate of a pixel along the split axis. *)
Definition splitCoord (isMobile : bool) (p : Pixel) : Z :=
  if isMobile then snd p else fst p.

(** ** JavaScript iteration and the constants of the program *)

(** [l.forEach((x, index) => ...)] on an array without holes. *)
Fixpoint each {A S : Type} (f : A -> nat -> S -> S) (l : list A) (i : nat) (s : S) : S :=
  match l with
  | [] => s
  | x :: t => each f t (Datatypes.S i) (f x i s)
  end.

(** [Math.PI]: the binary64 number nearest to pi, which is a rational. *)
Definition Math_PI : Q := 884279719003555 # 281474976710656.

(** The smoothing factor [0.08] of [animate]. *)
Definition smoothing : Q := 8 # 100.

(** What the handlers read of [window]. *)
Record Window : Type := mkWindow { innerWidth : Z; innerHeight : Z }.

(** One entry of the panel configuration. *)
Record Panel : Type := mkPanel { panelAccentColor : string; panelModel : string }.

(** What the constructor reads of its container: the [data-panels]
    attribute, already parsed when present, and whether the loading
    indicator and the canvas wrapper exist. *)
Record Container : Type := mkContainer {
  datasetPanels : option (list Panel);
  hasLoadingEl : bool;
  hasCanvasWrapper : bool
}.

(** [model.rotation.z = v] and the disposal of a model's resources. *)
Definition setRotationZ (v : JS.number) (m : Three.Model) : Three.Model :=
  Three.mkModel (Three.kind m) (Three.rotation_x m) (Three.rotation_y m) v (Three.freed m).
Definition setRotationY (v : JS.number) (m : Three.Model) : Three.Model :=
  Three.mkModel (Three.kind m) (Three.rotation_x m) v (Three.rotation_z m) (Three.freed m).
Definition free (m : Three.Model) : Three.Model :=
  Three.mkModel (Three.kind m) (Three.rotation_x m) (Three.rotation_y m) (Three.rotation_z m) true.

(** The handles of the models that [scene.traverse] reaches. *)
Definition sceneHandles (sc : Three.Scene) : list nat :=
  omap (fun c => match c with Three.ModelRef h => Some h | Three.Light _ => None end)
       (Three.children sc).

(** [this.scenes.forEach(scene => scene.traverse(object => ...dispose()))]:
    lights own neither geometry nor material, the meshes of every model in
    a scene are disposed. *)
Definition disposeScenes (scs : list Three.Scene) (st : list Three.Model) : list Three.Model :=
  foldr (fun h acc => alter free h acc) st (scs ≫= sceneHandles).

(** A scene as [setupScenes] builds it: the lights of the variant's rig. *)
Definition newScene (rig : list string) (p : Panel) : Three.Scene :=
  Three.mkScene (panelAccentColor p) (Three.Light <$> rig).

(** ** The scroll-driven variants: what the two documents share *)
Module Scroll.

(** The instance.  Beside the fields of [this]: [store] is the heap of model
    nodes, shared by [models] and the scenes; [loadedCount] is the counter
    captured by the load callbacks; [inFlight] lists the panel indices whose
    load has not settled; [readySignals] counts the calls of
    [onModelsLoaded]; [frameRequests] counts the frame callbacks registered
    with [requestAnimationFrame] and not yet run.  [loadingEl] is [None]
    when the element is missing, [Some true] once its fade-out started;
    [canvasWrapper] holds the wrapper's visibility; [observer] tells whether
    the intersection observer is connected. *)
Record State : Type := mkState {
  panels : list Panel;
  loadingEl : option bool;
  canvasWrapper : option bool;
  scenes : list Three.Scene;
  models : JS.array nat;
  store : list Three.Model;
  isMobile : bool;
  scrollProgress : JS.number;
  targetScrollProgress : JS.number;
  isInView : bool;
  camera : Three.Camera;
  renderer : Three.Renderer;
  observer : bool;
  loadedCount : nat;
  inFlight : list nat;
  readySignals : nat;
  frameRequests : nat
}.

Definition set_loadingEl (v : option bool) (s : State) : State :=
  mkState (panels s) v (canvasWrapper s) (scenes s) (models s) (store s) (isMobile s)
    (scrollProgress s) (targetScrollProgress s) (isInView s) (camera s) (renderer s)
    (observer s) (loadedCount s) (inFlight s) (readySignals s) (frameRequests s).
Definition set_canvasWrapper (v : option bool) (s : State) : State :=
  mkState (panels s) (loadingEl s) v (scenes s) (models s) (store s) (isMobile s)
    (scrollProgress s) (targetScrollProgress s) (isInView s) (camera s) (renderer s)
    (observer s) (loadedCount s) (inFlight s) (readySignals s) (frameRequests s).
Definition set_scenes (v : list Three.Scene) (s : State) : State :=
  mkState (panels s) (loadingEl s) (canvasWrapper s) v (models s) (store s) (isMobile
    s) (scrollProgress s) (targetScrollProgress s) (isInView s) (camera s) (renderer
    s) (observer s) (loadedCount s) (inFlight s) (readySignals s) (frameRequests s).
Definition set_models (v : JS.array nat) (s : State) : State :=
  mkState (panels s) (loadingEl s) (canvasWrapper s) (scenes s) v (store s) (isMobile
    s) (scrollProgress s) (targetScrollProgress s) (isInView s) (camera s) (renderer
    s) (observer s) (loadedCount s) (inFlight s) (readySignals s) (frameRequests s).
Definition set_store (v : list Three.Model) (s : State) : State :=
  mkState (panels s) (loadingEl s) (canvasWrapper s) (scenes s) (models s) v (isMobile
    s) (scrollProgress s) (targetScrollProgress s) (isInView s) (camera s) (renderer
    s) (observer s) (loadedCount s) (inFlight s) (readySignals s) (frameRequests s).
Definition set_isMobile (v : bool) (s : State) : State :=
  mkState (panels s) (loadingEl s) (canvasWrapper s) (scenes s) (models s) (store s) v
    (scrollProgress s) (targetScrollProgress s) (isInView s) (camera s) (renderer s)
    (observer s) (loadedCount s) (inFlight s) (readySignals s) (frameRequests s).
Definition set_scrollProgress (v : JS.number) (s : State) : State :=
  mkState (panels s) (loadingEl s) (canvasWrapper s) (scenes s) (models s) (store s)
    (isMobile s) v (targetScrollProgress s) (isInView s) (camera s) (renderer s)
    (observer s) (loadedCount s) (inFlight s) (readySignals s) (frameRequests s).
Definition set_targetScrollProgress (v : JS.number) (s : State) : State :=
  mkState (panels s) (loadingEl s) (canvasWrapper s) (scenes s) (models s) (store s)
    (isMobile s) (scrollProgress s) v (isInView s) (camera s) (renderer s) (observer
    s) (loadedCount s) (inFlight s) (readySignals s) (frameRequests s).
Definition set_isInView (v : bool) (s : State) : State :=
  mkState (panels s) (loadingEl s) (canvasWrapper s) (scenes s) (models s) (store s)
    (isMobile s) (scrollProgress s) (targetScrollProgress s) v (camera s) (renderer s)
    (observer s) (loadedCount s) (inFlight s) (readySignals s) (frameRequests s).
Definition set_camera (v : Three.Camera) (s : State) : State :=
  mkState (panels s) (loadingEl s) (canvasWrapper s) (scenes s) (models s) (store s)
    (isMobile s) (scrollProgress s) (targetScrollProgress s) (isInView s) v (renderer
    s) (observer s) (loadedCount s) (inFlight s) (readySignals s) (frameRequests s).
Definition set_renderer (v : Three.Renderer) (s : State) : State :=
  mkState (panels s) (loadingEl s) (canvasWrapper s) (scenes s) (models s) (store s)
    (isMobile s) (scrollProgress s) (targetScrollProgress s) (isInView s) (camera s) v
    (observer s) (loadedCount s) (inFlight s) (readySignals s) (frameRequests s).
Definition set_observer (v : bool) (s : State) : State :=
  mkState (panels s) (loadingEl s) (canvasWrapper s) (scenes s) (models s) (store s)
    (isMobile s) (scrollProgress s) (targetScrollProgress s) (isInView s) (camera s)
    (renderer s) v (loadedCount s) (inFlight s) (readySignals s) (frameRequests s).
Definition set_loadedCount (v : nat) (s : State) : State :=
  mkState (panels s) (loadingEl s) (canvasWrapper s) (scenes s) (models s) (store s)
    (isMobile s) (scrollProgress s) (targetScrollProgress s) (isInView s) (camera s)
    (renderer s) (observer s) v (inFlight s) (readySignals s) (frameRequests s).
Definition set_inFlight (v : list nat) (s : State) : State :=
  mkState (panels s) (loadingEl s) (canvasWrapper s) (scenes s) (models s) (store s)
    (isMobile s) (scrollProgress s) (targetScrollProgress s) (isInView s) (camera s)
    (renderer s) (observer s) (loadedCount s) v (readySignals s) (frameRequests s).
Definition set_readySignals (v : nat) (s : State) : State :=
  mkState (panels s) (loadingEl s) (canvasWrapper s) (scenes s) (models s) (store s)
    (isMobile s) (scrollProgress s) (targetScrollProgress s) (isInView s) (camera s)
    (renderer s) (observer s) (loadedCount s) (inFlight s) v (frameRequests s).
Definition set_frameRequests (v : nat) (s : State) : State :=
  mkState (panels s) (loadingEl s) (canvasWrapper s) (scenes s) (models s) (store s)
    (isMobile s) (scrollProgress s) (targetScrollProgress s) (isInView s) (camera s)
    (renderer s) (observer s) (loadedCount s) (inFlight s) (readySignals s) v.

(** [constructor], before [this.init()]; [camera] and [renderer], not yet
    assigned there, hold values that [init] replaces before any use. *)
Definition construct (c : Container) (w : Window) : State :=
  mkState (default [] (datasetPanels c))
    (if hasLoadingEl c then Some false else None)
    (if hasCanvasWrapper c then Some true else None)
    [] [] []
    (isMobileFor (innerWidth w))
    (JS.Fin 0) (JS.Fin 0) true
    (Three.newCamera (JS.Fin 1)) (Three.newRenderer 0 0) false 0 [] 0 0.

Definition setupRenderer (w : Window) (s : State) : State :=
  set_renderer
    (Three.setScissorTest true
       (Three.setSize (innerWidth w) (innerHeight w)
          (Three.newRenderer (innerWidth w) (innerHeight w)))) s.

Definition setupScenes (rig : list string) (s : State) : State :=
  each (fun panel _ s => set_scenes (scenes s ++ [newScene rig panel]) s) (panels s) 0%nat s.

Definition setupCamera (w : Window) (s : State) : State :=
  set_camera (Three.newCamera (JS.div (JS.of_Z (innerWidth w)) (JS.of_Z (innerHeight w)))) s.

(** [createPlaceholderModel(index, panel)]: a fresh group with no rotation,
    stored in [models[index]] and added to [scenes[index]] (which exists:
    both callers pass an index of [panels], and [setupScenes] pushed one
    scene per panel). *)
Definition createPlaceholderModel (index : nat) (s : State) : State :=
  let handle := length (store s) in
  let group := Three.mkModel Three.PlaceholderModel (JS.Fin 0) (JS.Fin 0) (JS.Fin 0) false in
  set_scenes (alter (Three.sceneAdd (Three.ModelRef handle)) index (scenes s))
    (set_models (JS.set (models s) index handle)
       (set_store (store s ++ [group]) s)).

Definition onModelsLoaded (s : State) : State :=
  set_readySignals (S (readySignals s))
    (match loadingEl s with
     | Some _ => set_loadingEl (Some true) s
     | None => s
     end).

(** [loadedCount++; if (loadedCount === this.panels.length) this.onModelsLoaded();] *)
Definition countLoad (s : State) : State :=
  let s := set_loadedCount (S (loadedCount s)) s in
  if Nat.eqb (loadedCount s) (length (panels s)) then onModelsLoaded s else s.

(** The callback of the intersection observer. *)
Definition onIntersect (entries : list bool) (s : State) : State :=
  each (fun isIntersecting _ s =>
          let s := set_isInView isIntersecting s in
          match canvasWrapper s with
          | Some _ => set_canvasWrapper (Some isIntersecting) s
          | None => s
          end) entries 0%nat s.

Definition setupScrollObserver (s : State) : State := set_observer true s.

(** [onScroll]: [top] is [getBoundingClientRect().top] of the container,
    [offsetHeight] its height. *)
Definition onScroll (top : Q) (offsetHeight : Z) (w : Window) (s : State) : State :=
  let sectionHeight := JS.of_Z offsetHeight in
  let viewportHeight := JS.of_Z (innerHeight w) in
  let scrolled := JS.neg (JS.Fin top) in
  let totalScrollable := JS.sub sectionHeight viewportHeight in
  set_targetScrollProgress
    (JS.max (JS.Fin 0) (JS.min (JS.Fin 1) (JS.div scrolled totalScrollable))) s.

Definition onResize (w : Window) (s : State) : State :=
  let width := innerWidth w in
  let height := innerHeight w in
  let s := set_isMobile (isMobileFor (innerWidth w)) s in
  let s := set_camera (Three.setAspect (JS.div (JS.of_Z width) (JS.of_Z height)) (camera s)) s in
  let s := set_camera (Three.updateProjectionMatrix (camera s)) s in
  set_renderer (Three.setSize width height (renderer s)) s.

(** One step of the smoothing: [displayed += (target - displayed) * 0.08]. *)
Definition smooth (target displayed : JS.number) : JS.number :=
  JS.add displayed (JS.mul (JS.sub target displayed) (JS.Fin smoothing)).

(** [this.models.forEach(model => { if (model) model.rotation.z = r })] *)
Definition rotateModels (r : JS.number) (s : State) : State :=
  JS.forEach (fun model _ s => set_store (alter (setRotationZ r) model (store s)) s)
    (models s) 0%nat s.

Definition destroy (s : State) : State :=
  let s := if observer s then set_observer false s else s in
  let s := set_renderer (Three.dispose (renderer s)) s in
  set_store (disposeScenes (scenes s) (store s)) s.

Section Loop.

(** The [render] method of the document at hand. *)
Variable render : Window -> State -> State.

Definition animate (w : Window) (s : State) : State :=
  let s := set_frameRequests (S (frameRequests s)) s in
  if negb (isInView s) then s
  else
    let s := set_scrollProgress (smooth (targetScrollProgress s) (scrollProgress s)) s in
    let targetRotationZ :=
      JS.mul (JS.mul (scrollProgress s) (JS.Fin Math_PI)) (JS.Fin 2) in
    let s := rotateModels targetRotationZ s in
    render w s.

(** The browser runs one registered frame callback, if there is one. *)
Definition frame (w : Window) (s : State) : State :=
  match frameRequests s with
  | O => s
  | S n => animate w (set_frameRequests n s)
  end.


End Loop.

End Scroll.

(** ** assets/three-product-showcase.js, first document *)
Module Placeholder.
Import Scroll.

Definition lightRig : list string :=
  ["ambient"; "hemi"; "mainLight"; "spotlight"; "accentLight"; "rimLight"; "fillLight"].

(** Every panel gets its placeholder at once; the real loader is commented
    out in this document. *)
Definition loadModels (s : State) : State :=
  let s := set_loadedCount 0 s in
  each (fun _ index s => countLoad (createPlaceholderModel index s)) (panels s) 0%nat s.

Definition render (w : Window) (s : State) : State :=
  let width := innerWidth w in
  let height := innerHeight w in
  let r := Three.setScissorTest true (renderer s) in
  if isMobile s then
    let halfHeight := half height in
    let r := Three.setViewport 0 halfHeight width halfHeight r in
    let r := Three.setScissor 0 halfHeight width halfHeight r in
    let r := match scenes s !! 0%nat with
             | Some _ => Three.render 0 (camera s) r
             | None => r
             end in
    let r := match scenes s !! 1%nat with
             | Some _ =>
                 let r := Three.setViewport 0 0 width halfHeight r in
                 let r := Three.setScissor 0 0 width halfHeight r in
                 Three.render 1 (camera s) r
             | None => r
             end in
    set_renderer r s
  else
    let halfWidth := half width in
    let r := Three.setViewport 0 0 halfWidth height r in
    let r := Three.setScissor 0 0 halfWidth height r in
    let r := match scenes s !! 0%nat with
             | Some _ => Three.render 0 (camera s) r
             | None => r
             end in
    let r := match scenes s !! 1%nat with
             | Some _ =>
                 let r := Three.setViewport halfWidth 0 halfWidth height r in
                 let r := Three.setScissor halfWidth 0 halfWidth height r in
                 Three.render 1 (camera s) r
             | None => r
             end in
    set_renderer r s.

Definition init (w : Window) (s : State) : State :=
  let s := setupRenderer w s in
  let s := setupScenes lightRig s in
  let s := setupCamera w s in
  let s := loadModels s in
  let s := setupScrollObserver s in
  animate render w s.

(** [new ProductShowcase(container)] *)
Definition create (c : Container) (w : Window) : State := init w (construct c w).

(** What can happen to a running instance. *)
Inductive Event : Type :=
  | Frame (w : Window)
  | ScrollTo (top : Q) (offsetHeight : Z) (w : Window)
  | Resize (w : Window)
  | Intersect (entries : list bool)
  | Destroy.

(** The observer stops calling back once disconnected. *)
Definition step (s : State) (e : Event) : State :=
  match e with
  | Frame w => frame render w s
  | ScrollTo top offsetHeight w => onScroll top offsetHeight w s
  | Resize w => onResize w s
  | Intersect entries => if observer s then onIntersect entries s else s
  | Destroy => destroy s
  end.

Definition run (s : State) (es : list Event) : State := foldl step s es.

End Placeholder.

(** ** assets/three-product-showcase.js, second document *)
Module Loader.
Import Scroll.

Definition lightRig : list string := ["ambient"; "mainLight"; "fillLight"; "spotlight"].

(** [loader.load(url, onLoad, onProgress, onError)] is started for every
    panel; nothing else happens until a load settles. *)
Definition loadModels (s : State) : State :=
  let s := set_loadedCount 0 s in
  each (fun _ index s => set_inFlight (inFlight s ++ [index]) s) (panels s) 0%nat s.

(** The success callback of the load of panel [index]. *)
Definition onLoad (index : nat) (s : State) : State :=
  let handle := length (store s) in
  let animationGroup := Three.mkModel Three.LoadedModel (JS.Fin 0) (JS.Fin 0) (JS.Fin 0) false in
  let s := set_store (store s ++ [animationGroup]) s in
  let s := set_models (JS.set (models s) index handle) s in
  let s := set_scenes (alter (Three.sceneAdd (Three.ModelRef handle)) index (scenes s)) s in
  countLoad s.

(** The error callback of the load of panel [index]. *)
Definition onError (index : nat) (s : State) : State :=
  countLoad (createPlaceholderModel index s).

Definition render (w : Window) (s : State) : State :=
  let width := innerWidth w in
  let height := innerHeight w in
  let r := Three.setScissorTest true (renderer s) in
  if isMobile s then
    let halfHeight := half height in
    let s := set_camera
               (Three.setAspect (JS.div (JS.of_Z width) (JS.of_Z halfHeight)) (camera s)) s in
    let s := set_camera (Three.updateProjectionMatrix (camera s)) s in
    let r := Three.setViewport 0 halfHeight width halfHeight r in
    let r := Three.setScissor 0 halfHeight width halfHeight r in
    let r := match scenes s !! 0%nat with
             | Some _ => Three.render 0 (camera s) r
             | None => r
             end in
    let r := match scenes s !! 1%nat with
             | Some _ =>
                 let r := Three.setViewport 0 0 width halfHeight r in
                 let r := Three.setScissor 0 0 width halfHeight r in
                 Three.render 1 (camera s) r
             | None => r
             end in
    set_renderer r s
  else
    let halfWidth := half width in
    let s := set_camera
               (Three.setAspect (JS.div (JS.of_Z halfWidth) (JS.of_Z height)) (camera s)) s in
    let s := set_camera (Three.updateProjectionMatrix (camera s)) s in
    let r := Three.setViewport 0 0 halfWidth height r in
    let r := Three.setScissor 0 0 halfWidth height r in
    let r := match scenes s !! 0%nat with
             | Some _ => Three.render 0 (camera s) r
             | None => r
             end in
    let r := match scenes s !! 1%nat with
             | Some _ =>
                 let r := Three.setViewport halfWidth 0 halfWidth height r in
                 let r := Three.setScissor halfWidth 0 halfWidth height r in
                 Three.render 1 (camera s) r
             | None => r
             end in
    set_renderer r s.

Definition init (w : Window) (s : State) : State :=
  let s := setupRenderer w s in
  let s := setupScenes lightRig s in
  let s := setupCamera w s in
  let s := loadModels s in
  let s := setupScrollObserver s in
  animate render w s.

Definition create (c : Container) (w : Window) : State := init w (construct c w).

(** What can happen to a running instance; [Loaded i] and [Failed i] are
    the settlements of the load of panel [i]. *)
Inductive Event : Type :=
  | Frame (w : Window)
  | ScrollTo (top : Q) (offsetHeight : Z) (w : Window)
  | Resize (w : Window)
  | Intersect (entries : list bool)
  | Loaded (index : nat)
  | Failed (index : nat)
  | Destroy.

(** [settle]: a load settles once, and only if it was started. *)
Definition settle (k : nat -> State -> State) (index : nat) (s : State) : State :=
  if bool_decide (index ∈ inFlight s)
  then k index (set_inFlight (filter (fun i => i ≠ index) (inFlight s)) s)
  else s.

Definition step (s : State) (e : Event) : State :=
  match e with
  | Frame w => frame render w s
  | ScrollTo top offsetHeight w => onScroll top offsetHeight w s
  | Resize w => onResize w s
  | Intersect entries => if observer s then onIntersect entries s else s
  | Loaded index => settle onLoad index s
  | Failed index => settle onError index s
  | Destroy => destroy s
  end.

Definition run (s : State) (es : list Event) : State := foldl step s es.

End Loader.

(** ** The hover-driven variant *)
Module Hover.

(** What the handlers read of the page: the window's width and the client
    size of the container. *)
Record Page : Type := mkPage { innerWidth : Z; clientWidth : Z; clientHeight : Z }.

(** [canvas.getBoundingClientRect()] *)
Record DOMRect : Type := mkDOMRect { left : Q; top : Q; width : Q; height : Q }.

(** A [mousemove] event. *)
Record MouseEvent : Type := mkMouseEvent { clientX : Q; clientY : Q }.

Record State : Type := mkState {
  panels : list Panel;
  loadingEl : option bool;
  scenes : list Three.Scene;
  models : JS.array nat;
  store : list Three.Model;
  isHovered : JS.array bool;
  rotationSpeed : Q;
  isMobile : bool;
  camera : Three.Camera;
  renderer : Three.Renderer;
  readySignals : nat;
  frameRequests : nat
}.

Definition set_loadingEl (v : option bool) (s : State) : State :=
  mkState (panels s) v (scenes s) (models s) (store s) (isHovered s) (rotationSpeed s)
    (isMobile s) (camera s) (renderer s) (readySignals s) (frameRequests s).
Definition set_scenes (v : list Three.Scene) (s : State) : State :=
  mkState (panels s) (loadingEl s) v (models s) (store s) (isHovered s) (rotationSpeed
    s) (isMobile s) (camera s) (renderer s) (readySignals s) (frameRequests s).
Definition set_models (v : JS.array nat) (s : State) : State :=
  mkState (panels s) (loadingEl s) (scenes s) v (store s) (isHovered s) (rotationSpeed
    s) (isMobile s) (camera s) (renderer s) (readySignals s) (frameRequests s).
Definition set_store (v : list Three.Model) (s : State) : State :=
  mkState (panels s) (loadingEl s) (scenes s) (models s) v (isHovered s)
    (rotationSpeed s) (isMobile s) (camera s) (renderer s) (readySignals s)
    (frameRequests s).
Definition set_isHovered (v : JS.array bool) (s : State) : State :=
  mkState (panels s) (loadingEl s) (scenes s) (models s) (store s) v (rotationSpeed s)
    (isMobile s) (camera s) (renderer s) (readySignals s) (frameRequests s).
Definition set_isMobile (v : bool) (s : State) : State :=
  mkState (panels s) (loadingEl s) (scenes s) (models s) (store s) (isHovered s)
    (rotationSpeed s) v (camera s) (renderer s) (readySignals s) (frameRequests s).
Definition set_camera (v : Three.Camera) (s : State) : State :=
  mkState (panels s) (loadingEl s) (scenes s) (models s) (store s) (isHovered s)
    (rotationSpeed s) (isMobile s) v (renderer s) (readySignals s) (frameRequests s).
Definition set_renderer (v : Three.Renderer) (s : State) : State :=
  mkState (panels s) (loadingEl s) (scenes s) (models s) (store s) (isHovered s)
    (rotationSpeed s) (isMobile s) (camera s) v (readySignals s) (frameRequests s).
Definition set_readySignals (v : nat) (s : State) : State :=
  mkState (panels s) (loadingEl s) (scenes s) (models s) (store s) (isHovered s)
    (rotationSpeed s) (isMobile s) (camera s) (renderer s) v (frameRequests s).
Definition set_frameRequests (v : nat) (s : State) : State :=
  mkState (panels s) (loadingEl s) (scenes s) (models s) (store s) (isHovered s)
    (rotationSpeed s) (isMobile s) (camera s) (renderer s) (readySignals s) v.

(** A method either returns or stops at an uncaught [TypeError]; the state
    holds what was done up to that point. *)
Inductive Outcome : Type :=
  | Returned (s : State)
  | TypeError (s : State).

Definition stateOf (o : Outcome) : State :=
  match o with Returned s | TypeError s => s end.

Definition threw (o : Outcome) : bool :=
  match o with Returned _ => false | TypeError _ => true end.

Definition lightRig : list string :=
  ["ambient"; "hemi"; "spotlight"; "accentLight"; "rimLight"; "fillLight"].

(** [constructor], before [this.init()]; [camera] and [renderer] hold
    values that [init] replaces before any use. *)
Definition construct (c : Container) (p : Page) : State :=
  mkState (default [] (datasetPanels c))
    (if hasLoadingEl c then Some false else None)
    [] [] [] [Some false; Some false] (3 # 10)
    (isMobileFor (innerWidth p))
    (Three.newCamera (JS.Fin 1)) (Three.newRenderer 0 0) 0 0.

Definition setupRenderer (p : Page) (s : State) : State :=
  set_renderer
    (Three.setScissorTest true
       (Three.setSize (clientWidth p) (clientHeight p)
          (Three.newRenderer (clientWidth p) (clientHeight p)))) s.

Definition setupScenes (s : State) : State :=
  each (fun panel _ s => set_scenes (scenes s ++ [newScene lightRig panel]) s)
    (panels s) 0%nat s.

Definition setupCamera (p : Page) (s : State) : State :=
  set_camera
    (Three.newCamera (JS.div (JS.of_Z (clientWidth p)) (JS.of_Z (clientHeight p)))) s.

(** [createPlaceholderModel(index, panel)]; the group is tilted by
    [rotation.x = -0.2]. *)
Definition createPlaceholderModel (index : nat) (s : State) : State :=
  let handle := length (store s) in
  let group :=
    Three.mkModel Three.PlaceholderModel (JS.Fin (- (2 # 10))) (JS.Fin 0) (JS.Fin 0) false in
  set_scenes (alter (Three.sceneAdd (Three.ModelRef handle)) index (scenes s))
    (set_models (JS.set (models s) index handle)
       (set_store (store s ++ [group]) s)).

Definition onModelsLoaded (s : State) : State :=
  set_readySignals (S (readySignals s))
    (match loadingEl s with
     | Some _ => set_loadingEl (Some true) s
     | None => s
     end).

(** [loadModels]: the counter is a local of the method. *)
Definition loadModels (s : State) : State :=
  snd (each (fun _ index '(loadedCount, s) =>
               let s := createPlaceholderModel index s in
               let loadedCount := S loadedCount in
               (loadedCount,
                if Nat.eqb loadedCount (length (panels s)) then onModelsLoaded s else s))
         (panels s) 0%nat (0%nat, s)).

(** [mouseenter] and [mouseleave] on the [index]-th panel element. *)
Definition onPanelEnter (index : nat) (s : State) : State :=
  set_isHovered (JS.set (isHovered s) index true) s.
Definition onPanelLeave (index : nat) (s : State) : State :=
  set_isHovered (JS.set (isHovered s) index false) s.


(** [a < b] and [a >= b] on finite numbers. *)
Definition lt (a b : Q) : bool := negb (Qle_bool b a).
Definition ge (a b : Q) : bool := Qle_bool b a.

Definition onMouseMove (event : MouseEvent) (rect : DOMRect) (s : State) : State :=
  let x := (clientX event - left rect)%Q in
  let y := (clientY event - top rect)%Q in
  if isMobile s then
    let midY := (height rect / 2)%Q in
    let s := set_isHovered (JS.set (isHovered s) 0 (lt y midY)) s in
    set_isHovered (JS.set (isHovered s) 1 (ge y midY)) s
  else
    let midX := (width rect / 2)%Q in
    let s := set_isHovered (JS.set (isHovered s) 0 (lt x midX)) s in
    set_isHovered (JS.set (isHovered s) 1 (ge x midX)) s.

Definition onResize (p : Page) (s : State) : State :=
  let width := clientWidth p in
  let height := clientHeight p in
  let s := set_isMobile (isMobileFor (innerWidth p)) s in
  let s := set_camera (Three.setAspect (JS.div (JS.of_Z width) (JS.of_Z height)) (camera s)) s in
  let s := set_camera (Three.updateProjectionMatrix (camera s)) s in
  set_renderer (Three.setSize width height (renderer s)) s.

(** [this.isHovered[index]] as a condition: a hole is [undefined], falsy. *)
Definition hovered (s : State) (index : nat) : bool :=
  default false (JS.get (isHovered s) index).

(** [model.rotation.y += this.rotationSpeed * delta] *)
Definition spin (delta : Q) (speed : Q) (m : Three.Model) : Three.Model :=
  setRotationY (JS.add (Three.rotation_y m) (JS.Fin (speed * delta))) m.

Definition rotateModels (delta : Q) (s : State) : State :=
  JS.forEach (fun model index s =>
                if negb (hovered s index)
                then set_store (alter (spin delta (rotationSpeed s)) model (store s)) s
                else s)
    (models s) 0%nat s.

(** [this.renderer.render(this.scenes[i], this.camera)] with no test of the
    scene: three.js reads a property of its scene argument, so an undefined
    scene raises a [TypeError]. *)
Definition draw (i : nat) (s : State) : Outcome :=
  match scenes s !! i with
  | Some _ => Returned (set_renderer (Three.render i (camera s) (renderer s)) s)
  | None => TypeError s
  end.

Definition render (p : Page) (s : State) : Outcome :=
  let width := clientWidth p in
  let height := clientHeight p in
  let s := set_renderer (Three.setScissorTest true (renderer s)) s in
  if isMobile s then
    let halfHeight := half height in
    let s := set_renderer (Three.setViewport 0 halfHeight width halfHeight (renderer s)) s in
    let s := set_renderer (Three.setScissor 0 halfHeight width halfHeight (renderer s)) s in
    match draw 0 s with
    | TypeError s => TypeError s
    | Returned s =>
        match scenes s !! 1%nat with
        | Some _ =>
            let s := set_renderer (Three.setViewport 0 0 width halfHeight (renderer s)) s in
            let s := set_renderer (Three.setScissor 0 0 width halfHeight (renderer s)) s in
            draw 1 s
        | None => Returned s
        end
    end
  else
    let halfWidth := half width in
    let s := set_renderer (Three.setViewport 0 0 halfWidth height (renderer s)) s in
    let s := set_renderer (Three.setScissor 0 0 halfWidth height (renderer s)) s in
    match draw 0 s with
    | TypeError s => TypeError s
    | Returned s =>
        match scenes s !! 1%nat with
        | Some _ =>
            let s := set_renderer (Three.setViewport halfWidth 0 halfWidth height (renderer s)) s in
            let s := set_renderer (Three.setScissor halfWidth 0 halfWidth height (renderer s)) s in
            draw 1 s
        | None => Returned s
        end
    end.

(** [animate]; [delta] is [this.clock.getDelta()], the seconds since the
    previous tick. *)
Definition animate (delta : Q) (p : Page) (s : State) : Outcome :=
  let s := set_frameRequests (S (frameRequests s)) s in
  let s := rotateModels delta s in
  render p s.

Definition init (p : Page) (s : State) : Outcome :=
  let s := setupRenderer p s in
  let s := setupScenes s in
  let s := setupCamera p s in
  let s := loadModels s in
  animate 0 p s.

Definition create (c : Container) (p : Page) : Outcome := init p (construct c p).


End Hover.

(** ** The scroll indicator *)

(** The second scroll listener of [setupEventListeners] in the
    scroll-driven documents, registered with [once: true]: the browser
    removes it when it has run once.  [hasScrolled] is the presence of the
    class [has-scrolled] on the container. *)
Module Indicator.

Record State : Type := mkState { armed : bool; hasScrolled : bool }.

(** After [setupEventListeners], on a container that has not the class. *)
Definition initial : State := mkState true false.

(** A scroll event with [window.scrollY = scrollY]. *)
Definition onScroll (scrollY : Q) (s : State) : State :=
  if armed s
  then mkState false (if negb (Qle_bool scrollY 50) then true else hasScrolled s)
  else s.

Definition run (s : State) (events : list Q) : State :=
  foldl (fun s scrollY => onScroll scrollY s) s events.

End Indicator.

(** ** Page bootstrap of the scroll-driven documents *)

(** [container.dataset.initialized] as a condition: a missing attribute and
    the empty string are falsy. *)
Definition truthy (attribute : option string) : bool :=
  match attribute with
  | Some v => negb (String.eqb v "")
  | None => false
  end.

Module Page.

(** A container of type [hero-3d-showcase] in the document: its data, its
    [data-initialized] attribute and its [_showcase] property, which would
    refer to an instance by its position in [instances]. *)
Record Hero : Type := mkHero {
  container : Container;
  initialized : option string;
  showcase : option nat
}.

(** The containers of the document, in document order, and the instances
    constructed so far. *)
Record State : Type := mkState { heroes : list Hero; instances : list Scroll.State }.

Section Bootstrap.

(** [new ProductShowcase(container)] of the document at hand. *)
Variable create : Container -> Window -> Scroll.State.

(** [initShowcases]: the node list is taken once, before the loop. *)
Definition initShowcases (w : Window) (p : State) : State :=
  each (fun hero i p =>
          if negb (truthy (initialized hero))
          then mkState
                 (<[i := mkHero (container hero) (Some "true") (showcase hero)]> (heroes p))
                 (instances p ++ [create (container hero) w])
          else p)
    (heroes p) 0%nat p.

(** The listeners of the module.  [found] is the position of the first
    showcase container inside the section of the event, if there is one. *)
Inductive Event : Type :=
  | DOMContentLoaded (w : Window)
  | SectionLoad (found : option nat) (w : Window)
  | SectionUnload (found : option nat).

Definition step (p : State) (e : Event) : State :=
  match e with
  | DOMContentLoaded w => initShowcases w p
  | SectionLoad found w =>
      match found with
      | Some _ => initShowcases w p
      | None => p
      end
  | SectionUnload found =>
      match found ≫= (fun i => heroes p !! i) with
      | Some hero =>
          match showcase hero with
          | Some k => mkState (heroes p) (alter Scroll.destroy k (instances p))
          | None => p
          end
      | None => p
      end
  end.

Definition run (p : State) (es : list Event) : State := foldl step p es.

End Bootstrap.

(** The document as the markup gives it: no instance yet, and no
    [_showcase] property, which markup cannot set. *)
Definition fresh (containers : list (Container * option string)) : State :=
  mkState (map (fun c => mkHero c.1 c.2 None) containers) [].

End Page.

(** ** Page bootstrap of the hover-driven variant *)
Module HoverPage.

Record Hero : Type := mkHero { container : Container; initialized : option string }.

(** [instances] lists the objects whose constructor was entered: one that
    threw is still reached by the frame callback it registered. *)
Record State : Type := mkState { heroes : list Hero; instances : list Hover.State }.

Inductive Outcome : Type :=
  | Returned (p : State)
  | TypeError (p : State).

Definition stateOf (o : Outcome) : State :=
  match o with Returned p | TypeError p => p end.

Definition threw (o : Outcome) : bool :=
  match o with Returned _ => false | TypeError _ => true end.

(** The loop of [initShowcases] from the [i]-th container on: an exception
    of the constructor leaves the loop before the container is marked. *)
Fixpoint initFrom (page : Hover.Page) (hs : list Hero) (i : nat) (p : State) : Outcome :=
  match hs with
  | [] => Returned p
  | hero :: rest =>
      if negb (truthy (initialized hero))
      then match Hover.create (container hero) page with
           | Hover.Returned s =>
               initFrom page rest (S i)
                 (mkState (<[i := mkHero (container hero) (Some "true")]> (heroes p))
                    (instances p ++ [s]))
           | Hover.TypeError s => TypeError (mkState (heroes p) (instances p ++ [s]))
           end
      else initFrom page rest (S i) p
  end.

Definition initShowcases (page : Hover.Page) (p : State) : Outcome :=
  initFrom page (heroes p) 0%nat p.

End HoverPage.

(** * Specification vocabulary *)

(** The two regions tile the surface: no pixel in both, and the pixels of
    the surface are exactly those of the one or the other. *)
Definition TilesSurface (isMobile : bool) (width height : Z) : Prop :=
  let '(r0, r1) := regions isMobile width height in
  (forall p, ~ (inRect r0 p /\ inRect r1 p)) /\
  (forall p, inSurface width height p <-> inRect r0 p \/ inRect r1 p).

(** The surface aspect ratio, in lowest terms. *)
Definition aspectRatio (width height : Z) : Q := Qred (inject_Z width / inject_Z height).

(** The orientation is decided by the aspect ratio of the surface alone. *)
Definition OrientationByAspect : Prop :=
  exists f : Q -> bool,
    forall width height, 0 < width -> 0 < height ->
      isMobileFor width = f (aspectRatio width height).

(** The two documents of assets/three-product-showcase.js. *)
Inductive Document : Type := First | Second.

Definition renderOf (doc : Document) : Window -> Scroll.State -> Scroll.State :=
  match doc with
  | First => Placeholder.render
  | Second => Loader.render
  end.

(** The part of the instance that [render] and the rotation of the models
    leave alone. *)
Definition sameMotion (s s' : Scroll.State) : Prop :=
  Scroll.scrollProgress s' = Scroll.scrollProgress s /\
  Scroll.targetScrollProgress s' = Scroll.targetScrollProgress s /\
  Scroll.isInView s' = Scroll.isInView s /\
  Scroll.frameRequests s' = Scroll.frameRequests s.

(** The displayed progress after [n] ticks at a constant target. *)
Fixpoint displayed (n : nat) (target d : JS.number) : JS.number :=
  match n with
  | O => d
  | S k => displayed k target (Scroll.smooth target d)
  end.



(** The width over the height of a region. *)
Definition regionAspect (r : Three.Rect) : JS.number :=
  JS.div (JS.of_Z (Three.rw r)) (JS.of_Z (Three.rh r)).

(** The projection in force at a draw call is that of its region. *)
Definition projectionFits (d : Three.DrawCall) : bool :=
  JS.eqb (Three.dc_projection d) (regionAspect (Three.dc_viewport d)).

(** What an instance without panels looks like, at any time: no scene, no
    model, no load in flight, nothing drawn, the ready signal never given,
    the loading indicator as the constructor found it, and [n] frame
    callbacks registered. *)
Record Idle (n : nat) (indicator : option bool) (s : Scroll.State) : Prop := mkIdle {
  idle_panels : Scroll.panels s = [];
  idle_scenes : Scroll.scenes s = [];
  idle_models : Scroll.models s = [];
  idle_inFlight : Scroll.inFlight s = [];
  idle_drawn : Three.drawn (Scroll.renderer s) = [];
  idle_ready : Scroll.readySignals s = 0%nat;
  idle_loadingEl : Scroll.loadingEl s = indicator;
  idle_frames : Scroll.frameRequests s = n
}.

(** After [destroy] the pending tick registers no other one, and a load
    that settles leaves the models and the scenes alone. *)
Definition StopsAtDisposal (s : Scroll.State) : Prop :=
  forall w index,
    let d := Scroll.destroy s in
    Scroll.frameRequests (Loader.step d (Loader.Frame w)) = 0%nat /\
    Scroll.models (Loader.step d (Loader.Loaded index)) = Scroll.models d /\
    Scroll.scenes (Loader.step d (Loader.Loaded index)) = Scroll.scenes d.

(** [new ProductShowcase(container)] of a scroll-driven document. *)
Definition createOf (doc : Document) : Container -> Window -> Scroll.State :=
  match doc with
  | First => Placeholder.create
  | Second => Loader.create
  end.

(** A scroll event other than the one whose quotient is [0 / 0]. *)
Definition regularScroll (top : Q) (offsetHeight : Z) (w : Window) : Prop :=
  ~ ((top == 0)%Q /\ offsetHeight = innerHeight w).

Definition regularFirst (e : Placeholder.Event) : Prop :=
  match e with
  | Placeholder.ScrollTo top offsetHeight w => regularScroll top offsetHeight w
  | _ => True
  end.

Definition regularSecond (e : Loader.Event) : Prop :=
  match e with
  | Loader.ScrollTo top offsetHeight w => regularScroll top offsetHeight w
  | _ => True
  end.

(** What the ticks and the page events leave alone: the panels, the
    scenes, the models and the bookkeeping of the loads. *)
Definition content (s : Scroll.State) :=
  (Scroll.panels s, Scroll.scenes s, Scroll.models s, Scroll.loadedCount s,
   Scroll.inFlight s, Scroll.readySignals s, Scroll.loadingEl s).

(** The handles stored in a sparse array. *)
Definition handles (a : JS.array nat) : list nat := omap id a.

(** [targetRotationZ] for a displayed progress. *)
Definition rotationFor (progress : JS.number) : JS.number :=
  JS.mul (JS.mul progress (JS.Fin Math_PI)) (JS.Fin 2).

(** The ready signal as the loads in flight and the panels determine it. *)
Definition readyWhen (inFlight : list nat) (panels : list Panel) : nat :=
  match inFlight, panels with
  | [], _ :: _ => 1
  | _, _ => 0
  end.

(** The bookkeeping of the loads of the second document. *)
Record LoadsAccounted (s : Scroll.State) : Prop := mkLoadsAccounted {
  loads_nodup : NoDup (Scroll.inFlight s);
  loads_count :
    (Scroll.loadedCount s + length (Scroll.inFlight s))%nat = length (Scroll.panels s);
  loads_ready : Scroll.readySignals s = readyWhen (Scroll.inFlight s) (Scroll.panels s)
}.

(** A container as [initShowcases] leaves it. *)
Definition marked (hero : Page.Hero) : Page.Hero :=
  if truthy (Page.initialized hero) then hero
  else Page.mkHero (Page.container hero) (Some "true") (Page.showcase hero).

(** A container that [initShowcases] has still to construct. *)
Definition pendingHero (hero : Page.Hero) : bool := negb (truthy (Page.initialized hero)).

(** [Math.max(0, Math.min(1, x))] on a finite [x]. *)
Definition clampQ (x : Q) : Q :=
  let m := if Qle_bool 1 x then 1%Q else x in
  if Qle_bool 0 m then m else 0%Q.

(** The displayed progress and the target are numbers of [0, 1]. *)
Definition ProgressInRange (s : Scroll.State) : Prop :=
  JS.within 0 1 (Scroll.scrollProgress s) /\ JS.within 0 1 (Scroll.targetScrollProgress s).

(** The accent colours of the scenes, in the order of [this.scenes]. *)
Definition accents (s : Scroll.State) : list string :=
  map Three.accentColor (Scroll.scenes s).

(** The state of the first document after [loadModels] has handled the
    first [i] panels: node [k] of the store is the placeholder of panel
    [k], held by [models[k]] and added to scene [k] alone; the ready signal
    has been given if and only if these are all the panels. *)
Record Filled (i : nat) (s : Scroll.State) : Prop := mkFilled {
  filled_store : length (Scroll.store s) = i;
  filled_kinds :
    Forall (fun m => Three.kind m = Three.PlaceholderModel) (Scroll.store s);
  filled_models : Scroll.models s = Some <$> seq 0 i;
  filled_count : Scroll.loadedCount s = i;
  filled_handles :
    sceneHandles <$> Scroll.scenes s =
      ((fun k => [k]) <$> seq 0 i) ++ replicate (length (Scroll.panels s) - i) [];
  filled_ready :
    Scroll.readySignals s =
      (if Nat.eqb i (length (Scroll.panels s)) && negb (Nat.eqb i 0) then 1 else 0)%nat
}.

(** An observation of the instance that does not depend on the field a
    setter assigns. *)
Definition Ignores {X V : Type} (g : Scroll.State -> X)
    (setter : V -> Scroll.State -> Scroll.State) : Prop :=
  forall v s, g (setter v s) = g s.

(** ** Sample inputs *)

(** The panel configuration of the end-to-end scenario. *)
Definition twoPanels : list Panel :=
  [mkPanel "#1E90FF" "kosher"; mkPanel "#FF4500" "nonkosher"].

Definition sampleContainer : Container := mkContainer (Some twoPanels) true true.

(** A container whose [data-panels] attribute is absent. *)
Definition bareContainer : Container := mkContainer None true true.

Definition desktop : Window := mkWindow 1024 600.

Definition phone : Window := mkWindow 375 800.

Definition hoverDesktop : Hover.Page := Hover.mkPage 1024 1024 600.

(** A visible instance of the first document whose target just jumped from
    0 to 1: the section is 1000 high in a viewport of 600 and its top is
    500 above the viewport's. *)
Definition jumped : Scroll.State :=
  Scroll.onScroll (- (500 # 1)) 1000 desktop (Placeholder.create sampleContainer desktop).


(** An instance of the hover-driven variant with the pointer over the left
    half of the canvas. *)
Definition hoverSample : Hover.State :=
  Hover.onMouseMove (Hover.mkMouseEvent (100 # 1) (100 # 1)) (Hover.mkDOMRect 0 0 (1024 # 1) (600 # 1))
    (Hover.stateOf (Hover.create sampleContainer hoverDesktop)).

(** A document of the hover-driven variant: a container without panel data
    followed by one with two panels. *)
Definition hoverDocument : HoverPage.State :=
  HoverPage.mkState
    [HoverPage.mkHero bareContainer None; HoverPage.mkHero sampleContainer None] [].

(** A container with a single panel. *)
Definition singleContainer : Container :=
  mkContainer (Some [mkPanel "#1E90FF" "kosher"]) true true.

(** * Properties *)

(** ** Viewport layout *)

Lemma half_div2 (n : Z) : half n = n / 2.
Proof.
  unfold half, JS.floor, Qfloor. simpl. now rewrite Z.mul_1_r.
Qed.

Lemma half_bounds (n : Z) : 2 * half n <= n < 2 * half n + 2.
Proof.
  rewrite half_div2. pose proof (Z.div_mod n 2 ltac:(lia)) as E.
  pose proof (Z.mod_pos_bound n 2 ltac:(lia)). lia.
Qed.

Lemma half_even (n : Z) : Z.even n = true -> 2 * half n = n.
Proof.
  rewrite half_div2. intros E. apply Z.even_spec in E as [k ->].
  rewrite (Z.mul_comm 2 k), Z.div_mul by lia. lia.
Qed.

Lemma half_odd (n : Z) : Z.even n = false -> 2 * half n = n - 1.
Proof.
  rewrite half_div2. intros E.
  assert (O : Z.odd n = true) by (rewrite <- Z.negb_even, E; reflexivity).
  apply Z.odd_spec in O as [k ->].
  replace (2 * k + 1) with (1 + k * 2) by lia.
  rewrite Z.div_add by lia. change (1 / 2) with 0. lia.
Qed.

(** [render] passes [regions] to the renderer: with both scenes present,
    the frame consists of two draw calls, one per region, viewport and
    scissor rectangle alike, scissor test on. *)
Lemma placeholder_render_regions (w : Window) (s : Scroll.State) sc0 sc1 :
  Scroll.scenes s !! 0%nat = Some sc0 ->
  Scroll.scenes s !! 1%nat = Some sc1 ->
  let '(r0, r1) := regions (Scroll.isMobile s) (innerWidth w) (innerHeight w) in
  Three.drawn (Scroll.renderer (Placeholder.render w s)) =
    Three.drawn (Scroll.renderer s) ++
      [Three.mkDraw 0 r0 r0 true (Three.projection (Scroll.camera s));
       Three.mkDraw 1 r1 r1 true (Three.projection (Scroll.camera s))].
Proof.
  intros H0 H1. unfold regions, Placeholder.render.
  destruct (Scroll.isMobile s); rewrite H0, H1; simpl;
    now rewrite <- app_assoc.
Qed.

Lemma loader_render_regions (w : Window) (s : Scroll.State) sc0 sc1 :
  Scroll.scenes s !! 0%nat = Some sc0 ->
  Scroll.scenes s !! 1%nat = Some sc1 ->
  let '(r0, r1) := regions (Scroll.isMobile s) (innerWidth w) (innerHeight w) in
  exists a,
    Three.drawn (Scroll.renderer (Loader.render w s)) =
      Three.drawn (Scroll.renderer s) ++
        [Three.mkDraw 0 r0 r0 true a; Three.mkDraw 1 r1 r1 true a].
Proof.
  intros H0 H1. unfold regions, Loader.render.
  destruct (Scroll.isMobile s); simpl; rewrite H0, H1; simpl;
    eexists; now rewrite <- app_assoc.
Qed.

Lemma hover_render_regions (p : Hover.Page) (s : Hover.State) sc0 sc1 :
  Hover.scenes s !! 0%nat = Some sc0 ->
  Hover.scenes s !! 1%nat = Some sc1 ->
  let '(r0, r1) := regions (Hover.isMobile s) (Hover.clientWidth p) (Hover.clientHeight p) in
  exists s',
    Hover.render p s = Hover.Returned s' /\
    Three.drawn (Hover.renderer s') =
      Three.drawn (Hover.renderer s) ++
        [Three.mkDraw 0 r0 r0 true (Three.projection (Hover.camera s));
         Three.mkDraw 1 r1 r1 true (Three.projection (Hover.camera s))].
Proof.
  intros H0 H1. unfold regions, Hover.render, Hover.draw.
  destruct (Hover.isMobile s) eqn:M; simpl; rewrite M; simpl; rewrite H0; simpl;
    rewrite H1; simpl; eexists; (split; [reflexivity|]); simpl;
    now rewrite <- app_assoc.
Qed.

(** The regions never overlap and never leave the surface. *)
Lemma regions_disjoint (m : bool) (w h : Z) (p : Pixel) :
  ~ (inRect (fst (regions m w h)) p /\ inRect (snd (regions m w h)) p).
Proof.
  unfold regions, inRect. destruct m; simpl; lia.
Qed.

Lemma regions_inside (m : bool) (w h : Z) (p : Pixel) :
  inRect (fst (regions m w h)) p \/ inRect (snd (regions m w h)) p ->
  inSurface w h p.
Proof.
  unfold regions, inRect, inSurface.
  pose proof (half_bounds w). pose proof (half_bounds h).
  destruct m; simpl; lia.
Qed.

(** C1, as stated, fails: on a 1025 x 600 desktop surface the last pixel
    column belongs to neither region. *)
Lemma regions_leave_gap_1025x600 : ~ TilesSurface false 1025 600.
Proof.
  unfold TilesSurface. simpl. intros [_ C].
  destruct (proj1 (C (1024, 0)))
    as [[[_ Hx] _] | [[_ Hx] _]]; [unfold inSurface; simpl; lia | | ];
    vm_compute in Hx; discriminate.
Qed.

(** C1 (amended): for every surface size the two rectangles of [render] are
    disjoint and lie inside the surface; a pixel of the surface is left
    uncovered exactly when the split dimension is odd and the pixel lies on
    its last line (the last column on desktop, the top row on mobile).  In
    particular the regions tile the surface when the split dimension is
    even. *)
Theorem regions_tile_up_to_odd_line (isMobile : bool) (width height : Z) :
  let '(r0, r1) := regions isMobile width height in
  (forall p, ~ (inRect r0 p /\ inRect r1 p)) /\
  (forall p, inRect r0 p \/ inRect r1 p -> inSurface width height p) /\
  (forall p, inSurface width height p ->
     (~ (inRect r0 p \/ inRect r1 p) <->
      Z.even (splitExtent isMobile width height) = false /\
      splitCoord isMobile p = splitExtent isMobile width height - 1)) /\
  (Z.even (splitExtent isMobile width height) = true ->
   TilesSurface isMobile width height).
Proof.
  pose proof (regions_disjoint isMobile width height) as D.
  pose proof (regions_inside isMobile width height) as I.
  unfold TilesSurface.
  destruct (regions isMobile width height) as [r0 r1] eqn:R. simpl in D, I.
  assert (U : forall p, inSurface width height p ->
     (~ (inRect r0 p \/ inRect r1 p) <->
      Z.even (splitExtent isMobile width height) = false /\
      splitCoord isMobile p = splitExtent isMobile width height - 1)).
  { intros [x y] S. unfold regions in R. unfold inSurface in S. simpl in S.
    destruct isMobile; injection R as <- <-; unfold inRect; simpl.
    - destruct (Z.even height) eqn:E.
      + pose proof (half_even _ E). split; [lia | intros [? _]; discriminate].
      + pose proof (half_odd _ E). split; [lia | lia].
    - destruct (Z.even width) eqn:E.
      + pose proof (half_even _ E). split; [lia | intros [? _]; discriminate].
      + pose proof (half_odd _ E). split; [lia | lia]. }
  split; [exact D | split; [exact I | split; [exact U |]]].
  intros E. split; [exact D |].
  intros p. split; [| apply I].
  intros S. destruct (U p S) as [U1 _]. rewrite E in U1.
  assert (N : ~ ~ (inRect r0 p \/ inRect r1 p)).
  { intros C. apply U1 in C. destruct C; discriminate. }
  unfold inRect in *. lia.
Qed.

(** ** Layout orientation *)

(** C6, as stated, fails: 400 x 500 and 800 x 1000 have the same aspect
    ratio, and the first is split top/bottom, the second (although
    narrower than high) left/right. *)
Lemma orientation_not_by_aspect :
  ~ OrientationByAspect /\
  (800 < 1000 /\ isMobileFor 800 = false) /\
  (aspectRatio 400 500 = aspectRatio 800 1000 /\ isMobileFor 400 = true).
Proof.
  split; [| repeat split; lia].
  intros [f H].
  pose proof (H 400 500 ltac:(lia) ltac:(lia)) as A.
  pose proof (H 800 1000 ltac:(lia) ltac:(lia)) as B.
  change (aspectRatio 800 1000) with (aspectRatio 400 500) in B.
  rewrite <- A in B. vm_compute in B. discriminate.
Qed.

(** C6 (amended): the orientation is a function of the window width alone,
    sampled by the constructor and by [onResize]: top/bottom exactly when
    the width is below 768, left/right otherwise.  A 1024 x 600 surface
    gives the regions (0,0,512,600) and (512,0,512,600); a 375 x 800
    surface gives (0,400,375,400) and (0,0,375,400). *)
Theorem orientation_by_width_threshold :
  (forall c w, Scroll.isMobile (Scroll.construct c w) = isMobileFor (innerWidth w)) /\
  (forall w s, Scroll.isMobile (Scroll.onResize w s) = isMobileFor (innerWidth w)) /\
  (forall c p, Hover.isMobile (Hover.construct c p) = isMobileFor (Hover.innerWidth p)) /\
  (forall p s, Hover.isMobile (Hover.onResize p s) = isMobileFor (Hover.innerWidth p)) /\
  (forall width, isMobileFor width = true <-> width < 768) /\
  regions (isMobileFor 1024) 1024 600 =
    (Three.mkRect 0 0 512 600, Three.mkRect 512 0 512 600) /\
  regions (isMobileFor 375) 375 800 =
    (Three.mkRect 0 400 375 400, Three.mkRect 0 0 375 400).
Proof.
  repeat split; try reflexivity.
  - unfold isMobileFor. intros H. now apply Z.ltb_lt.
  - unfold isMobileFor. intros H. now apply Z.ltb_lt.
Qed.

(** ** Scroll progress *)

(** [Math.max(0, Math.min(1, x))] is a number of [0, 1] unless [x] is [NaN],
    which it lets through. *)
Lemma clamp_within (x : JS.number) :
  x <> JS.NaN -> JS.within 0 1 (JS.max (JS.Fin 0) (JS.min (JS.Fin 1) x)).
Proof.
  destruct x as [q | | |]; intros H; try congruence; simpl.
  - destruct (Qle_bool 1 q) eqn:E1; simpl.
    + split; [discriminate | apply Qle_refl].
    + destruct (Qle_bool 0 q) eqn:E0.
      * apply Qle_bool_iff in E0. split; [exact E0 |].
        destruct (Qlt_le_dec q 1) as [L | L]; [now apply Qlt_le_weak |].
        apply Qle_bool_iff in L. congruence.
      * split; [apply Qle_refl | discriminate].
  - split; [discriminate | apply Qle_refl].
  - split; [apply Qle_refl | discriminate].
Qed.

Lemma clamp_NaN : JS.max (JS.Fin 0) (JS.min (JS.Fin 1) JS.NaN) = JS.NaN.
Proof. reflexivity. Qed.

(** The quotient of [onScroll] is [NaN] only as [0 / 0]. *)
Lemma scroll_quotient_NaN (top : Q) (offsetHeight viewportHeight : Z) :
  JS.div (JS.neg (JS.Fin top)) (JS.sub (JS.of_Z offsetHeight) (JS.of_Z viewportHeight)) = JS.NaN ->
  (top == 0)%Q /\ offsetHeight = viewportHeight.
Proof.
  unfold JS.of_Z, JS.sub. simpl.
  destruct (Qcompare_spec (inject_Z offsetHeight + - inject_Z viewportHeight) 0) as [E | E | E];
    try discriminate.
  destruct (Qcompare_spec (- top) 0) as [T | T | T]; try discriminate.
  intros _. split.
  - lra.
  - assert (Q : (inject_Z offsetHeight == inject_Z viewportHeight)%Q) by lra.
    unfold Qeq in Q. simpl in Q. lia.
Qed.

(** Away from that case the target is a real number of [0, 1], also when
    the section is not higher than the viewport. *)
Lemma onScroll_within (top : Q) (offsetHeight : Z) (w : Window) (s : Scroll.State) :
  ~ ((top == 0)%Q /\ offsetHeight = innerHeight w) ->
  JS.within 0 1 (Scroll.targetScrollProgress (Scroll.onScroll top offsetHeight w s)).
Proof.
  intros H. unfold Scroll.onScroll. simpl. apply clamp_within.
  intros N. apply H. now apply scroll_quotient_NaN.
Qed.

(** A [NaN] target makes the displayed progress [NaN] at the next tick, and
    a [NaN] displayed progress stays [NaN] whatever the later targets. *)
Lemma smooth_NaN_target (displayed : JS.number) : Scroll.smooth JS.NaN displayed = JS.NaN.
Proof. now destruct displayed. Qed.

Lemma smooth_NaN_displayed (target : JS.number) : Scroll.smooth target JS.NaN = JS.NaN.
Proof. now destruct target. Qed.

(** On a visible instance whose section is as high as the viewport (600),
    a scroll event at the top of the section leaves the displayed progress
    and the rotation of both models at [NaN] from the next tick on, also
    after a later scroll event with a sound target. *)
Lemma NaN_reaches_the_models :
  let s1 := Scroll.frame Placeholder.render desktop
              (Scroll.onScroll 0 600 desktop (Placeholder.create sampleContainer desktop)) in
  let s2 := Scroll.frame Placeholder.render desktop
              (Scroll.onScroll (- (100 # 1)) 1000 desktop s1) in
  Scroll.scrollProgress s1 = JS.NaN /\
  map Three.rotation_z (Scroll.store s1) = [JS.NaN; JS.NaN] /\
  Scroll.targetScrollProgress (Scroll.onScroll (- (100 # 1)) 1000 desktop s1) = JS.Fin (100 # 400) /\
  Scroll.scrollProgress s2 = JS.NaN /\
  map Three.rotation_z (Scroll.store s2) = [JS.NaN; JS.NaN].
Proof.
  repeat split; vm_compute; reflexivity.
Qed.

(** C3: the scroll handler divides by [sectionHeight - viewportHeight]
    unclamped.  With the section exactly as high as the viewport (800) and
    its top at the top of the viewport the quotient is [0 / 0] and the
    target scroll progress becomes [NaN] instead of a number of [0, 1]. *)
Theorem onScroll_zero_over_zero (s : Scroll.State) :
  Scroll.targetScrollProgress (Scroll.onScroll 0 800 (mkWindow 1280 800) s) = JS.NaN /\
  ~ JS.within 0 1 (Scroll.targetScrollProgress (Scroll.onScroll 0 800 (mkWindow 1280 800) s)).
Proof.
  split; [reflexivity | intros H; exact H].
Qed.

(** ** The render loop of the scroll-driven documents *)

Lemma sameMotion_refl s : sameMotion s s.
Proof. repeat split. Qed.

Lemma sameMotion_trans s1 s2 s3 : sameMotion s1 s2 -> sameMotion s2 s3 -> sameMotion s1 s3.
Proof. unfold sameMotion. intuition congruence. Qed.

Lemma render_sameMotion doc w s : sameMotion s (renderOf doc w s).
Proof.
  destruct doc; unfold renderOf, Placeholder.render, Loader.render;
    destruct (Scroll.isMobile s); repeat split.
Qed.

Lemma forEach_sameMotion (f : nat -> nat -> Scroll.State -> Scroll.State) :
  (forall x i s, sameMotion s (f x i s)) ->
  forall a i s, sameMotion s (JS.forEach f a i s).
Proof.
  intros Hf a. induction a as [| [x |] a IH]; intros i s; simpl.
  - apply sameMotion_refl.
  - eapply sameMotion_trans; [apply Hf | apply IH].
  - apply IH.
Qed.

Lemma rotateModels_sameMotion r s : sameMotion s (Scroll.rotateModels r s).
Proof.
  unfold Scroll.rotateModels. apply forEach_sameMotion.
  intros x i s'. repeat split.
Qed.

(** A tick of a visible instance moves the displayed progress one
    smoothing step towards the target and registers the next tick. *)
Lemma frame_in_view doc w s :
  Scroll.isInView s = true ->
  (0 < Scroll.frameRequests s)%nat ->
  let s' := Scroll.frame (renderOf doc) w s in
  Scroll.scrollProgress s' =
    Scroll.smooth (Scroll.targetScrollProgress s) (Scroll.scrollProgress s) /\
  Scroll.targetScrollProgress s' = Scroll.targetScrollProgress s /\
  Scroll.isInView s' = true /\
  Scroll.frameRequests s' = Scroll.frameRequests s.
Proof.
  intros V F. unfold Scroll.frame.
  destruct (Scroll.frameRequests s) as [| n] eqn:E; [lia |].
  unfold Scroll.animate. simpl. rewrite V. simpl.
  match goal with |- context [renderOf doc w ?x] =>
    destruct (render_sameMotion doc w x) as (A & B & C & D);
    match x with Scroll.rotateModels ?r ?y =>
      destruct (rotateModels_sameMotion r y) as (A' & B' & C' & D')
    end
  end.
  rewrite A, B, C, D, A', B', C', D'. simpl. auto.
Qed.


(** *** The smoothing recurrence over exact arithmetic *)






(** ** Smoothing *)



(** ** Visibility gating *)

Lemma set_frameRequests_id (s : Scroll.State) :
  Scroll.set_frameRequests (Scroll.frameRequests s) s = s.
Proof. now destruct s. Qed.

(** A tick of an instance that is not in view only registers the next tick. *)
Lemma animate_paused render w s :
  Scroll.isInView s = false ->
  Scroll.animate render w s = Scroll.set_frameRequests (S (Scroll.frameRequests s)) s.
Proof.
  intros V. unfold Scroll.animate. simpl. now rewrite V.
Qed.

Lemma frame_paused render w s :
  Scroll.isInView s = false -> Scroll.frame render w s = s.
Proof.
  intros V. unfold Scroll.frame.
  destruct (Scroll.frameRequests s) as [| n] eqn:E; [reflexivity |].
  rewrite animate_paused by exact V. simpl.
  rewrite <- E. now destruct s.
Qed.



(** ** The ready signal *)

Section Preservation.

Context {X : Type} (g : Scroll.State -> X).

Lemma each_preserves {A : Type} (f : A -> nat -> Scroll.State -> Scroll.State) :
  (forall x i s, g (f x i s) = g s) ->
  forall l i s, g (each f l i s) = g s.
Proof.
  intros Hf l. induction l as [| x l IH]; intros i s; simpl; [reflexivity |].
  now rewrite IH, Hf.
Qed.

Lemma forEach_preserves {A : Type} (f : A -> nat -> Scroll.State -> Scroll.State) :
  (forall x i s, g (f x i s) = g s) ->
  forall a i s, g (JS.forEach f a i s) = g s.
Proof.
  intros Hf a. induction a as [| [x |] a IH]; intros i s; simpl;
    [reflexivity | now rewrite IH, Hf | now rewrite IH].
Qed.

End Preservation.

Lemma render_idle doc w s n L : Idle n L s -> Idle n L (renderOf doc w s).
Proof.
  intros [].
  destruct doc; unfold renderOf, Placeholder.render, Loader.render;
    destruct (Scroll.isMobile s); simpl;
    rewrite idle_scenes0; simpl; now constructor.
Qed.

Lemma rotateModels_idle r s n L : Idle n L s -> Idle n L (Scroll.rotateModels r s).
Proof.
  intros I. unfold Scroll.rotateModels. now rewrite (idle_models _ _ _ I).
Qed.

Lemma animate_idle doc w s n L :
  Idle n L s -> Idle (S n) L (Scroll.animate (renderOf doc) w s).
Proof.
  intros I.
  assert (I1 : Idle (S n) L (Scroll.set_frameRequests (S (Scroll.frameRequests s)) s)).
  { destruct I. constructor; simpl; auto. }
  unfold Scroll.animate.
  destruct (negb (Scroll.isInView
              (Scroll.set_frameRequests (S (Scroll.frameRequests s)) s))); [exact I1 |].
  apply render_idle, rotateModels_idle.
  destruct I1. now constructor.
Qed.

Lemma frame_idle doc w s L : Idle 1 L s -> Idle 1 L (Scroll.frame (renderOf doc) w s).
Proof.
  intros I. unfold Scroll.frame. rewrite (idle_frames _ _ _ I).
  apply animate_idle. destruct I. now constructor.
Qed.

Lemma onIntersect_idle entries n : forall s L,
  Idle n L s -> Idle n L (Scroll.onIntersect entries s).
Proof.
  unfold Scroll.onIntersect. generalize 0%nat.
  induction entries as [| e entries IH]; intros i s L I; simpl; [exact I |].
  apply IH. destruct I. destruct (Scroll.canvasWrapper s); now constructor.
Qed.

Lemma destroy_idle s n L : Idle n L s -> Idle n L (Scroll.destroy s).
Proof.
  intros []. unfold Scroll.destroy.
  destruct (Scroll.observer s); simpl; constructor; simpl; auto.
Qed.

Lemma placeholder_step_idle s e L : Idle 1 L s -> Idle 1 L (Placeholder.step s e).
Proof.
  intros I. destruct e; simpl.
  - now apply (frame_idle First).
  - destruct I. now constructor.
  - destruct I. now constructor.
  - destruct (Scroll.observer s); [now apply onIntersect_idle | exact I].
  - now apply destroy_idle.
Qed.

Lemma loader_step_idle s e L : Idle 1 L s -> Idle 1 L (Loader.step s e).
Proof.
  intros I. destruct e; simpl.
  - now apply (frame_idle Second).
  - destruct I. now constructor.
  - destruct I. now constructor.
  - destruct (Scroll.observer s); [now apply onIntersect_idle | exact I].
  - unfold Loader.settle. now rewrite (idle_inFlight _ _ _ I).
  - unfold Loader.settle. now rewrite (idle_inFlight _ _ _ I).
  - now apply destroy_idle.
Qed.

Lemma placeholder_run_idle es : forall s L, Idle 1 L s -> Idle 1 L (Placeholder.run s es).
Proof.
  unfold Placeholder.run.
  induction es as [| e es IH]; intros s L I; simpl; [exact I |].
  apply IH. now apply placeholder_step_idle.
Qed.

Lemma loader_run_idle es : forall s L, Idle 1 L s -> Idle 1 L (Loader.run s es).
Proof.
  unfold Loader.run.
  induction es as [| e es IH]; intros s L I; simpl; [exact I |].
  apply IH. now apply loader_step_idle.
Qed.

Lemma construct_idle (c : Container) (w : Window) :
  default [] (datasetPanels c) = [] ->
  Idle 0 (if hasLoadingEl c then Some false else None) (Scroll.construct c w).
Proof.
  intros E. now constructor.
Qed.

Lemma setup_idle (rig : list string) (w : Window) (s : Scroll.State) L :
  Idle 0 L s ->
  Idle 0 L (Scroll.setupCamera w (Scroll.setupScenes rig (Scroll.setupRenderer w s))).
Proof.
  intros I. unfold Scroll.setupScenes.
  assert (P : Scroll.panels (Scroll.setupRenderer w s) = []) by apply I.
  rewrite P. destruct I. now constructor.
Qed.

Lemma create_idle (c : Container) (w : Window) :
  default [] (datasetPanels c) = [] ->
  Idle 1 (if hasLoadingEl c then Some false else None) (Placeholder.create c w) /\
  Idle 1 (if hasLoadingEl c then Some false else None) (Loader.create c w).
Proof.
  intros E. pose proof (construct_idle c w E) as I.
  split.
  - unfold Placeholder.create, Placeholder.init. apply (animate_idle First).
    pose proof (setup_idle Placeholder.lightRig w _ _ I) as J.
    unfold Scroll.setupScrollObserver, Placeholder.loadModels.
    set (s := Scroll.setupCamera w _) in *. clearbody s.
    assert (P : Scroll.panels (Scroll.set_loadedCount 0 s) = []) by apply J.
    rewrite P. destruct J. now constructor.
  - unfold Loader.create, Loader.init. apply (animate_idle Second).
    pose proof (setup_idle Loader.lightRig w _ _ I) as J.
    unfold Scroll.setupScrollObserver, Loader.loadModels.
    set (s := Scroll.setupCamera w _) in *. clearbody s.
    assert (P : Scroll.panels (Scroll.set_loadedCount 0 s) = []) by apply J.
    rewrite P. destruct J. now constructor.
Qed.

(** C10: when the parsed panel list is empty (the [data-panels] attribute
    absent, or an empty array), [onModelsLoaded] is called neither by the
    initialisation nor after any sequence of later events, and the loading
    indicator stays as it was found, never faded out; the initialisation
    and every tick complete all the same, a frame callback stays registered
    and nothing is drawn. *)
Theorem no_ready_signal_without_panels (c : Container) (w : Window) :
  default [] (datasetPanels c) = [] ->
  (forall es,
     let s := Placeholder.run (Placeholder.create c w) es in
     Scroll.readySignals s = 0%nat /\
     Scroll.loadingEl s = (if hasLoadingEl c then Some false else None) /\
     Scroll.frameRequests s = 1%nat /\
     Three.drawn (Scroll.renderer s) = []) /\
  (forall es,
     let s := Loader.run (Loader.create c w) es in
     Scroll.readySignals s = 0%nat /\
     Scroll.loadingEl s = (if hasLoadingEl c then Some false else None) /\
     Scroll.frameRequests s = 1%nat /\
     Three.drawn (Scroll.renderer s) = []).
Proof.
  intros E. destruct (create_idle c w E) as [P L].
  split; intros es.
  - destruct (placeholder_run_idle es _ _ P). auto.
  - destruct (loader_run_idle es _ _ L). auto.
Qed.

Lemma no_ready_signal_without_panels_witness :
  Scroll.readySignals
    (Placeholder.run (Placeholder.create bareContainer desktop)
       [Placeholder.Frame desktop; Placeholder.ScrollTo (- (100 # 1)) 1000 desktop;
        Placeholder.Frame desktop]) = 0%nat.
Proof.
  exact (proj1 (proj1 (no_ready_signal_without_panels bareContainer desktop eq_refl)
                  [Placeholder.Frame desktop; Placeholder.ScrollTo (- (100 # 1)) 1000 desktop;
                   Placeholder.Frame desktop])).
Defined.

(** ** Sparse arrays *)

Lemma get_set_eq {A} (a : JS.array A) (i : nat) (v : A) : JS.get (JS.set a i v) i = Some v.
Proof.
  revert a. induction i as [| i IH]; intros [| h a]; simpl; try reflexivity; apply IH.
Qed.

Lemma get_nil {A} (j : nat) : JS.get ([] : JS.array A) j = None.
Proof. now destruct j. Qed.

Lemma get_cons_S {A} (h : option A) (a : JS.array A) (j : nat) :
  JS.get (h :: a) (S j) = JS.get a j.
Proof. reflexivity. Qed.

Lemma get_set_ne {A} (a : JS.array A) (i j : nat) (v : A) :
  i <> j -> JS.get (JS.set a i v) j = JS.get a j.
Proof.
  revert a j. induction i as [| i IH]; intros [| h a] [| j] N;
    try congruence; try reflexivity.
  - simpl JS.set. rewrite get_cons_S, IH by congruence. now rewrite !get_nil.
  - simpl JS.set. rewrite !get_cons_S. apply IH. congruence.
Qed.

(** ** Hover engagement *)


(** ** Missing scenes *)

(** The scroll-driven documents test both scenes: with one scene only, the
    frame draws the first region and skips the second. *)
Lemma scroll_render_skips_second doc w s sc0 :
  Scroll.scenes s = [sc0] ->
  exists a,
    Three.drawn (Scroll.renderer (renderOf doc w s)) =
      Three.drawn (Scroll.renderer s) ++
        [Three.mkDraw 0 (regions (Scroll.isMobile s) (innerWidth w) (innerHeight w)).1
           (regions (Scroll.isMobile s) (innerWidth w) (innerHeight w)).1 true a].
Proof.
  intros E.
  destruct doc; unfold renderOf, Placeholder.render, Loader.render, regions;
    destruct (Scroll.isMobile s); simpl; rewrite E; simpl; eexists; reflexivity.
Qed.

(** With no scene at all they draw nothing. *)
Lemma scroll_render_skips_both doc w s :
  Scroll.scenes s = [] ->
  Three.drawn (Scroll.renderer (renderOf doc w s)) = Three.drawn (Scroll.renderer s).
Proof.
  intros E.
  destruct doc; unfold renderOf, Placeholder.render, Loader.render;
    destruct (Scroll.isMobile s); simpl; rewrite E; reflexivity.
Qed.

(** The hover variant has no visibility flag: every tick of an instance
    with its two scenes returns after two more draw calls. *)
Lemma hover_tick_always_draws delta p s sc0 sc1 :
  Hover.scenes s = [sc0; sc1] ->
  Hover.threw (Hover.animate delta p s) = false /\
  length (Three.drawn (Hover.renderer (Hover.stateOf (Hover.animate delta p s)))) =
    (length (Three.drawn (Hover.renderer s)) + 2)%nat.
Proof.
  intros E. unfold Hover.animate.
  set (s1 := Hover.rotateModels delta _).
  assert (E1 : Hover.scenes s1 = [sc0; sc1] /\
               Hover.renderer s1 = Hover.renderer s /\
               Hover.camera s1 = Hover.camera s).
  { subst s1. unfold Hover.rotateModels.
    set (s0 := Hover.set_frameRequests _ s).
    change (Hover.models s0) with (Hover.models s).
    assert (G : Hover.scenes s0 = [sc0; sc1] /\ Hover.renderer s0 = Hover.renderer s /\
                Hover.camera s0 = Hover.camera s) by (now subst s0).
    clearbody s0. revert s0 G. generalize 0%nat.
    induction (Hover.models s) as [| [x |] a IH]; intros i s0 G; simpl; auto.
    apply IH. destruct (negb (Hover.hovered s0 i)); auto. }
  destruct E1 as (Sc & R & C).
  pose proof (hover_render_regions p s1 sc0 sc1) as H.
  destruct (regions _ _ _) as [r0 r1].
  destruct H as (s' & Hr & Hd); [now rewrite Sc | now rewrite Sc |].
  rewrite Hr. simpl. rewrite Hd, length_app, R. split; reflexivity.
Qed.

(** The hover variant tests the second scene only. *)
Lemma hover_render_skips_second p s sc0 :
  Hover.scenes s = [sc0] ->
  exists s', Hover.render p s = Hover.Returned s' /\
    Three.drawn (Hover.renderer s') =
      Three.drawn (Hover.renderer s) ++
        [Three.mkDraw 0 (regions (Hover.isMobile s) (Hover.clientWidth p) (Hover.clientHeight p)).1
           (regions (Hover.isMobile s) (Hover.clientWidth p) (Hover.clientHeight p)).1 true
           (Three.projection (Hover.camera s))].
Proof.
  intros E. unfold Hover.render, Hover.draw, regions.
  destruct (Hover.isMobile s) eqn:M; simpl; rewrite M; simpl; rewrite !E; simpl;
    rewrite ?E; simpl; eexists; split; reflexivity.
Qed.

Lemma hover_render_throws p s :
  Hover.scenes s = [] ->
  exists s', Hover.render p s = Hover.TypeError s' /\
             Three.drawn (Hover.renderer s') = Three.drawn (Hover.renderer s).
Proof.
  intros E. unfold Hover.render, Hover.draw.
  destruct (Hover.isMobile s) eqn:M; simpl; rewrite M; simpl; rewrite !E; simpl;
    rewrite ?E; simpl; eexists; split; reflexivity.
Qed.

(** C7: in the hover variant the draw of the first region is not guarded.
    On a container without panel data there is no scene, and the first
    frame, run by the constructor, passes an undefined scene to the
    renderer and stops at a [TypeError] with nothing drawn, where the
    scroll-driven documents skip the region and return. *)
Theorem hover_missing_scene_throws :
  Hover.threw (Hover.create bareContainer hoverDesktop) = true /\
  Three.drawn (Hover.renderer (Hover.stateOf (Hover.create bareContainer hoverDesktop))) = [] /\
  Three.drawn (Scroll.renderer (Placeholder.create bareContainer desktop)) = [] /\
  Three.drawn (Scroll.renderer (Loader.create bareContainer desktop)) = [].
Proof.
  repeat split; vm_compute; reflexivity.
Qed.

(** ** Camera aspect *)

(** The second document sets the aspect of the camera to that of the two
    regions, which have the same size, and recomputes the projection,
    before it draws. *)
Lemma loader_render_projection (w : Window) (s : Scroll.State) (d : Three.DrawCall) :
  d ∈ Three.drawn (Scroll.renderer (Loader.render w s)) ->
  d ∈ Three.drawn (Scroll.renderer s) \/
  Three.dc_projection d = regionAspect (Three.dc_viewport d).
Proof.
  unfold Loader.render.
  destruct (Scroll.isMobile s); simpl;
    destruct (Scroll.scenes s !! 0%nat), (Scroll.scenes s !! 1%nat); simpl;
    intros H; repeat (apply elem_of_app in H as [H | H]);
    try (left; exact H);
    apply list_elem_of_singleton in H; subst d; right; reflexivity.
Qed.

(** C5: the hover variant (and the first scroll-driven document) never
    touch the camera in [render].  On a 1024 x 600 desktop surface with two
    panels both regions are 512 x 600 and both are drawn with the
    projection of the whole surface, 1024 / 600; the second scroll-driven
    document draws them with 512 / 600. *)
Theorem hover_draws_with_surface_aspect :
  Hover.threw (Hover.create sampleContainer hoverDesktop) = false /\
  map (fun d => (Three.dc_viewport d, Three.dc_projection d, projectionFits d))
    (Three.drawn (Hover.renderer (Hover.stateOf (Hover.create sampleContainer hoverDesktop)))) =
    [(Three.mkRect 0 0 512 600, JS.Fin (1024 # 600), false);
     (Three.mkRect 512 0 512 600, JS.Fin (1024 # 600), false)] /\
  map (fun d => (Three.dc_viewport d, Three.dc_projection d, projectionFits d))
    (Three.drawn (Scroll.renderer (Placeholder.create sampleContainer desktop))) =
    [(Three.mkRect 0 0 512 600, JS.Fin (1024 # 600), false);
     (Three.mkRect 512 0 512 600, JS.Fin (1024 # 600), false)] /\
  map (fun d => (Three.dc_viewport d, Three.dc_projection d, projectionFits d))
    (Three.drawn (Scroll.renderer (Loader.create sampleContainer desktop))) =
    [(Three.mkRect 0 0 512 600, JS.Fin (512 # 600), true);
     (Three.mkRect 512 0 512 600, JS.Fin (512 # 600), true)].
Proof.
  repeat split; vm_compute; reflexivity.
Qed.

(** ** Disposal *)

Lemma frame_keeps_requests doc w s :
  (0 < Scroll.frameRequests s)%nat ->
  Scroll.frameRequests (Scroll.frame (renderOf doc) w s) = Scroll.frameRequests s.
Proof.
  intros F. destruct (Scroll.isInView s) eqn:V.
  - now destruct (frame_in_view doc w s V F) as (_ & _ & _ & R).
  - now rewrite frame_paused.
Qed.

(** [destroy] changes the observer, the renderer and the store only. *)
Lemma destroy_fields s :
  Scroll.observer (Scroll.destroy s) = false /\
  Scroll.renderer (Scroll.destroy s) = Three.dispose (Scroll.renderer s) /\
  Scroll.store (Scroll.destroy s) = disposeScenes (Scroll.scenes s) (Scroll.store s) /\
  Scroll.frameRequests (Scroll.destroy s) = Scroll.frameRequests s /\
  Scroll.inFlight (Scroll.destroy s) = Scroll.inFlight s /\
  Scroll.scenes (Scroll.destroy s) = Scroll.scenes s /\
  Scroll.models (Scroll.destroy s) = Scroll.models s /\
  Scroll.isInView (Scroll.destroy s) = Scroll.isInView s /\
  Scroll.loadedCount (Scroll.destroy s) = Scroll.loadedCount s.
Proof.
  unfold Scroll.destroy. destruct (Scroll.observer s) eqn:O; simpl; rewrite ?O; auto 10.
Qed.

Lemma free_all_freed (hs : list nat) (st : list Three.Model) (h : nat) (m : Three.Model) :
  h ∈ hs ->
  foldr (fun h acc => alter free h acc) st hs !! h = Some m ->
  Three.freed m = true.
Proof.
  induction hs as [| k hs IH]; intros I L; [now apply elem_of_nil in I |].
  simpl in L. destruct (decide (k = h)) as [-> | N].
  - rewrite list_lookup_alter_eq in L.
    destruct (foldr _ st hs !! h) as [m' |]; simpl in L; [| discriminate].
    injection L as <-. reflexivity.
  - rewrite list_lookup_alter_ne in L by exact N.
    apply IH; [| exact L].
    apply elem_of_cons in I as [-> | I]; [congruence | exact I].
Qed.

Lemma free_all_length (hs : list nat) (st : list Three.Model) :
  length (foldr (fun h acc => alter free h acc) st hs) = length st.
Proof.
  induction hs as [| k hs IH]; [reflexivity |].
  simpl. now rewrite length_alter.
Qed.

Lemma countLoad_content s :
  Scroll.models (Scroll.countLoad s) = Scroll.models s /\
  Scroll.scenes (Scroll.countLoad s) = Scroll.scenes s /\
  Scroll.store (Scroll.countLoad s) = Scroll.store s.
Proof.
  unfold Scroll.countLoad. cbv zeta.
  set (s1 := Scroll.set_loadedCount (S (Scroll.loadedCount s)) s).
  destruct (Nat.eqb (Scroll.loadedCount s1) (length (Scroll.panels s1))); [| now subst s1].
  unfold Scroll.onModelsLoaded. now destruct (Scroll.loadingEl s1).
Qed.

(** C2, as stated, fails: on an instance with two panels destroyed while
    both loads are in flight, the next tick registers another tick, and the
    load of panel 0 that settles afterwards is stored in [models] and added
    to the first scene. *)
Lemma destroyed_instance_keeps_running :
  ~ StopsAtDisposal (Loader.create sampleContainer desktop).
Proof.
  intros H. destruct (H desktop 0%nat) as (F & _).
  vm_compute in F. discriminate.
Qed.

(** The same instance, seen from the loader. *)
Lemma destroyed_instance_still_loads :
  let d := Scroll.destroy (Loader.create sampleContainer desktop) in
  Scroll.models d = [] /\
  Scroll.models (Loader.step d (Loader.Loaded 0)) = [Some 0%nat] /\
  Scroll.scenes (Loader.step d (Loader.Loaded 0)) <> Scroll.scenes d.
Proof.
  repeat split; try (vm_compute; reflexivity).
  vm_compute. discriminate.
Qed.

(** C2 (amended): [destroy] disconnects the observer, disposes the renderer
    and the geometries and materials of every model in a scene, and leaves
    the rest of the instance as it was: the registered frame callback is
    not cancelled and a tick after [destroy] registers the next one; a
    load that settles after [destroy] still stores its model in
    [models[index]] and adds it to [scenes[index]]. *)
Theorem destroy_releases_and_keeps_running (s : Scroll.State) :
  let d := Scroll.destroy s in
  (Scroll.observer d = false /\
   Three.disposed (Scroll.renderer d) = true /\
   (forall h m, h ∈ Scroll.scenes s ≫= sceneHandles ->
                Scroll.store d !! h = Some m -> Three.freed m = true)) /\
  (Scroll.frameRequests d = Scroll.frameRequests s /\
   Scroll.inFlight d = Scroll.inFlight s /\
   Scroll.scenes d = Scroll.scenes s /\
   Scroll.models d = Scroll.models s) /\
  (forall w, (0 < Scroll.frameRequests s)%nat ->
     Scroll.frameRequests (Loader.step d (Loader.Frame w)) = Scroll.frameRequests s) /\
  (forall index, index ∈ Scroll.inFlight s ->
     let s' := Loader.step d (Loader.Loaded index) in
     Scroll.models s' = JS.set (Scroll.models s) index (length (Scroll.store s)) /\
     Scroll.scenes s' =
       alter (Three.sceneAdd (Three.ModelRef (length (Scroll.store s)))) index (Scroll.scenes s) /\
     Scroll.store s' =
       Scroll.store d ++
       [Three.mkModel Three.LoadedModel (JS.Fin 0) (JS.Fin 0) (JS.Fin 0) false]).
Proof.
  destruct (destroy_fields s) as (O & R & St & F & I & Sc & M & V & C).
  cbv zeta. split; [| split; [| split]].
  - split; [exact O |]. split; [now rewrite R |].
    intros h m Hh L. rewrite St in L. unfold disposeScenes in L.
    eapply free_all_freed; eassumption.
  - auto.
  - intros w Fp. simpl. rewrite (frame_keeps_requests Second) by lia. exact F.
  - intros index Hi. simpl. unfold Loader.settle.
    rewrite bool_decide_true by (now rewrite I).
    unfold Loader.onLoad.
    match goal with |- context [Scroll.countLoad ?x] =>
      destruct (countLoad_content x) as (-> & -> & ->)
    end.
    cbn [Scroll.models Scroll.scenes Scroll.store Scroll.set_scenes Scroll.set_models
         Scroll.set_store Scroll.set_inFlight].
    rewrite St, M, Sc. unfold disposeScenes. rewrite free_all_length.
    repeat split. now destruct (Scroll.observer s).
Qed.

Lemma destroy_releases_and_keeps_running_witness :
  (0 < Scroll.frameRequests (Loader.create sampleContainer desktop))%nat /\
  0%nat ∈ Scroll.inFlight (Loader.create sampleContainer desktop) /\
  Scroll.frameRequests
    (Loader.step (Scroll.destroy (Loader.create sampleContainer desktop))
       (Loader.Frame desktop)) = 1%nat /\
  JS.get
    (Scroll.models
       (Loader.step (Scroll.destroy (Loader.create sampleContainer desktop))
          (Loader.Loaded 0))) 0 = Some 0%nat.
Proof.
  assert (F : (0 < Scroll.frameRequests (Loader.create sampleContainer desktop))%nat).
  { vm_compute. lia. }
  assert (I : 0%nat ∈ Scroll.inFlight (Loader.create sampleContainer desktop)).
  { vm_compute. left. }
  pose (T := destroy_releases_and_keeps_running (Loader.create sampleContainer desktop)).
  split; [exact F |]. split; [exact I |]. split.
  - exact (proj1 (proj2 (proj2 T)) desktop F).
  - rewrite (proj1 (proj2 (proj2 (proj2 T)) 0%nat I)). apply get_set_eq.
Defined.

(** ** End-to-end frames *)

(** The first frame of the first document, on the desktop and on the phone
    surface of the scenario: which scene goes to which rectangle. *)
Lemma first_frame_regions :
  map (fun d => (Three.dc_scene d, Three.dc_viewport d, Three.dc_scissor d))
    (Three.drawn (Scroll.renderer (Placeholder.create sampleContainer desktop))) =
    [(0%nat, Three.mkRect 0 0 512 600, Three.mkRect 0 0 512 600);
     (1%nat, Three.mkRect 512 0 512 600, Three.mkRect 512 0 512 600)] /\
  map (fun d => (Three.dc_scene d, Three.dc_viewport d, Three.dc_scissor d))
    (Three.drawn (Scroll.renderer (Placeholder.create sampleContainer phone))) =
    [(0%nat, Three.mkRect 0 400 375 400, Three.mkRect 0 400 375 400);
     (1%nat, Three.mkRect 0 0 375 400, Three.mkRect 0 0 375 400)].
Proof.
  split; vm_compute; reflexivity.
Qed.

(** The ready signal of the first document fires once, during the
    initialisation, when there are panels. *)
Lemma ready_signal_with_panels :
  Scroll.readySignals (Placeholder.create sampleContainer desktop) = 1%nat /\
  Scroll.loadingEl (Placeholder.create sampleContainer desktop) = Some true /\
  Scroll.readySignals (Loader.create sampleContainer desktop) = 0%nat /\
  Scroll.readySignals
    (Loader.run (Loader.create sampleContainer desktop) [Loader.Failed 0; Loader.Loaded 1]) = 1%nat.
Proof.
  repeat split; vm_compute; reflexivity.
Qed.

(** * Further properties *)

(** ** Loops and footprints *)

Lemma each_inv {A S : Type} (P : S -> Prop) (f : A -> nat -> S -> S) :
  (forall x i s, P s -> P (f x i s)) ->
  forall l i s, P s -> P (each f l i s).
Proof.
  intros Hf l. induction l as [| x l IH]; intros i s H; simpl; [exact H |].
  apply IH, Hf, H.
Qed.

Lemma forEach_inv {A S : Type} (P : S -> Prop) (f : A -> nat -> S -> S) :
  (forall x i s, P s -> P (f x i s)) ->
  forall a i s, P s -> P (JS.forEach f a i s).
Proof.
  intros Hf a. induction a as [| [x |] a IH]; intros i s H; simpl;
    [exact H | apply IH, Hf, H | apply IH, H].
Qed.

Ltac ignores := intros ? ?; reflexivity.

Section Footprints.

Context {X : Type} (g : Scroll.State -> X).

Lemma createPlaceholderModel_footprint index s :
  Ignores g Scroll.set_scenes -> Ignores g Scroll.set_models ->
  Ignores g Scroll.set_store ->
  g (Scroll.createPlaceholderModel index s) = g s.
Proof.
  intros H1 H2 H3. unfold Scroll.createPlaceholderModel. now rewrite H1, H2, H3.
Qed.

Lemma countLoad_footprint s :
  Ignores g Scroll.set_loadedCount -> Ignores g Scroll.set_readySignals ->
  Ignores g Scroll.set_loadingEl ->
  g (Scroll.countLoad s) = g s.
Proof.
  intros H1 H2 H3. unfold Scroll.countLoad. cbv zeta.
  set (s1 := Scroll.set_loadedCount _ s).
  assert (E : g s1 = g s) by apply H1.
  destruct (Nat.eqb _ _); [| exact E].
  unfold Scroll.onModelsLoaded. rewrite H2.
  destruct (Scroll.loadingEl s1); [now rewrite H3 | exact E].
Qed.

Lemma rotateModels_footprint r s :
  Ignores g Scroll.set_store -> g (Scroll.rotateModels r s) = g s.
Proof.
  intros H. unfold Scroll.rotateModels. apply forEach_preserves.
  intros x i s'. apply H.
Qed.

Lemma render_footprint doc w s :
  Ignores g Scroll.set_renderer -> Ignores g Scroll.set_camera ->
  g (renderOf doc w s) = g s.
Proof.
  intros H1 H2.
  destruct doc; unfold renderOf, Placeholder.render, Loader.render; cbv zeta;
    destruct (Scroll.isMobile s); now rewrite H1, ?H2.
Qed.

Lemma animate_footprint doc w s :
  Ignores g Scroll.set_frameRequests -> Ignores g Scroll.set_scrollProgress ->
  Ignores g Scroll.set_store -> Ignores g Scroll.set_renderer ->
  Ignores g Scroll.set_camera ->
  g (Scroll.animate (renderOf doc) w s) = g s.
Proof.
  intros H1 H2 H3 H4 H5. unfold Scroll.animate. cbv zeta.
  destruct (negb _); [apply H1 |].
  rewrite render_footprint, rotateModels_footprint by assumption.
  now rewrite H2, H1.
Qed.

Lemma frame_footprint doc w s :
  Ignores g Scroll.set_frameRequests -> Ignores g Scroll.set_scrollProgress ->
  Ignores g Scroll.set_store -> Ignores g Scroll.set_renderer ->
  Ignores g Scroll.set_camera ->
  g (Scroll.frame (renderOf doc) w s) = g s.
Proof.
  intros H1 H2 H3 H4 H5. unfold Scroll.frame.
  destruct (Scroll.frameRequests s); [reflexivity |].
  rewrite animate_footprint by assumption. apply H1.
Qed.

Lemma onIntersect_footprint entries s :
  Ignores g Scroll.set_isInView -> Ignores g Scroll.set_canvasWrapper ->
  g (Scroll.onIntersect entries s) = g s.
Proof.
  intros H1 H2. unfold Scroll.onIntersect. apply each_preserves.
  intros e i s'. cbv zeta.
  destruct (Scroll.canvasWrapper _); now rewrite ?H2, H1.
Qed.

Lemma destroy_footprint s :
  Ignores g Scroll.set_observer -> Ignores g Scroll.set_renderer ->
  Ignores g Scroll.set_store ->
  g (Scroll.destroy s) = g s.
Proof.
  intros H1 H2 H3. unfold Scroll.destroy. cbv zeta. rewrite H3, H2.
  destruct (Scroll.observer s); [apply H1 | reflexivity].
Qed.

Lemma onResize_footprint w s :
  Ignores g Scroll.set_isMobile -> Ignores g Scroll.set_camera ->
  Ignores g Scroll.set_renderer ->
  g (Scroll.onResize w s) = g s.
Proof.
  intros H1 H2 H3. unfold Scroll.onResize. cbv zeta. now rewrite H3, H2, H2, H1.
Qed.

Lemma onScroll_footprint top offsetHeight w s :
  Ignores g Scroll.set_targetScrollProgress ->
  g (Scroll.onScroll top offsetHeight w s) = g s.
Proof.
  intros H. apply H.
Qed.

Lemma onLoad_footprint index s :
  Ignores g Scroll.set_scenes -> Ignores g Scroll.set_models ->
  Ignores g Scroll.set_store -> Ignores g Scroll.set_loadedCount ->
  Ignores g Scroll.set_readySignals -> Ignores g Scroll.set_loadingEl ->
  g (Loader.onLoad index s) = g s.
Proof.
  intros H1 H2 H3 H4 H5 H6. unfold Loader.onLoad. cbv zeta.
  rewrite countLoad_footprint by assumption. now rewrite H1, H2, H3.
Qed.

Lemma onError_footprint index s :
  Ignores g Scroll.set_scenes -> Ignores g Scroll.set_models ->
  Ignores g Scroll.set_store -> Ignores g Scroll.set_loadedCount ->
  Ignores g Scroll.set_readySignals -> Ignores g Scroll.set_loadingEl ->
  g (Loader.onError index s) = g s.
Proof.
  intros H1 H2 H3 H4 H5 H6. unfold Loader.onError.
  rewrite countLoad_footprint by assumption.
  now apply createPlaceholderModel_footprint.
Qed.

Lemma setup_footprint rig w s :
  Ignores g Scroll.set_renderer -> Ignores g Scroll.set_scenes ->
  Ignores g Scroll.set_camera ->
  g (Scroll.setupCamera w (Scroll.setupScenes rig (Scroll.setupRenderer w s))) = g s.
Proof.
  intros H1 H2 H3. unfold Scroll.setupCamera. rewrite H3.
  unfold Scroll.setupScenes. rewrite each_preserves by (intros; apply H2).
  apply H1.
Qed.

End Footprints.

(** ** The frame loop *)

Lemma animate_requests doc w s :
  Scroll.frameRequests (Scroll.animate (renderOf doc) w s) = S (Scroll.frameRequests s).
Proof.
  unfold Scroll.animate. cbv zeta. destruct (negb _); [reflexivity |].
  rewrite render_footprint, rotateModels_footprint by ignores. reflexivity.
Qed.

Lemma construct_requests c w : Scroll.frameRequests (Scroll.construct c w) = 0%nat.
Proof. reflexivity. Qed.

Lemma create_requests c w :
  Scroll.frameRequests (Placeholder.create c w) = 1%nat /\
  Scroll.frameRequests (Loader.create c w) = 1%nat.
Proof.
  split; unfold Placeholder.create, Loader.create,
    Placeholder.init, Loader.init; cbv zeta.
  - rewrite (animate_requests First). f_equal.
    unfold Scroll.setupScrollObserver, Placeholder.loadModels. cbv zeta.
    change (Scroll.frameRequests (Scroll.set_observer true ?x))
      with (Scroll.frameRequests x).
    rewrite each_preserves.
    + change (Scroll.frameRequests (Scroll.set_loadedCount 0%nat ?x))
        with (Scroll.frameRequests x).
      now rewrite setup_footprint by ignores.
    + intros x i s. rewrite countLoad_footprint by ignores.
      now apply createPlaceholderModel_footprint.
  - rewrite (animate_requests Second). f_equal.
    unfold Scroll.setupScrollObserver, Loader.loadModels. cbv zeta.
    change (Scroll.frameRequests (Scroll.set_observer true ?x))
      with (Scroll.frameRequests x).
    rewrite each_preserves.
    + change (Scroll.frameRequests (Scroll.set_loadedCount 0%nat ?x))
        with (Scroll.frameRequests x).
      now rewrite setup_footprint by ignores.
    + intros x i s. reflexivity.
Qed.

Lemma settle_requests k index s :
  (forall i s', Scroll.frameRequests (k i s') = Scroll.frameRequests s') ->
  Scroll.frameRequests (Loader.settle k index s) = Scroll.frameRequests s.
Proof.
  intros H. unfold Loader.settle. destruct (bool_decide _); [| reflexivity].
  now rewrite H.
Qed.

(** The frame loop neither stops nor doubles: after the construction and
    after every later event, [destroy] included, exactly one frame callback
    is registered, in both scroll-driven documents. *)
Theorem one_frame_callback_at_all_times (c : Container) (w : Window) :
  (forall es, Scroll.frameRequests (Placeholder.run (Placeholder.create c w) es) = 1%nat) /\
  (forall es, Scroll.frameRequests (Loader.run (Loader.create c w) es) = 1%nat).
Proof.
  split; intros es.
  - unfold Placeholder.run.
    assert (G : forall s, Scroll.frameRequests s = 1%nat ->
                Scroll.frameRequests (foldl Placeholder.step s es) = 1%nat).
    { induction es as [| e es IH]; intros s H; simpl; [exact H |].
      apply IH. destruct e; cbn [Placeholder.step Loader.step].
      - rewrite (frame_keeps_requests First) by lia. exact H.
      - exact H.
      - exact H.
      - destruct (Scroll.observer s); [| exact H].
        now rewrite onIntersect_footprint by ignores.
      - now rewrite destroy_footprint by ignores. }
    apply G, create_requests.
  - unfold Loader.run.
    assert (G : forall s, Scroll.frameRequests s = 1%nat ->
                Scroll.frameRequests (foldl Loader.step s es) = 1%nat).
    { induction es as [| e es IH]; intros s H; simpl; [exact H |].
      apply IH. destruct e; cbn [Placeholder.step Loader.step].
      - rewrite (frame_keeps_requests Second) by lia. exact H.
      - exact H.
      - exact H.
      - destruct (Scroll.observer s); [| exact H].
        now rewrite onIntersect_footprint by ignores.
      - rewrite settle_requests; [exact H |].
        intros i s'. now rewrite onLoad_footprint by ignores.
      - rewrite settle_requests; [exact H |].
        intros i s'. now rewrite onError_footprint by ignores.
      - now rewrite destroy_footprint by ignores. }
    apply G, create_requests.
Qed.

(** ** The scroll indicator *)

Lemma indicator_disarmed (events : list Q) (s : Indicator.State) :
  Indicator.armed s = false -> Indicator.run s events = s.
Proof.
  intros A. unfold Indicator.run.
  induction events as [| y events IH]; simpl; [reflexivity |].
  unfold Indicator.onScroll at 2. now rewrite A.
Qed.

(** The class [has-scrolled] is decided by the first scroll event alone: it
    is set exactly when [window.scrollY] exceeds 50 at that event, and no
    later scroll event sets it. *)
Theorem has_scrolled_first_event_only (events : list Q) :
  Indicator.hasScrolled (Indicator.run Indicator.initial events) =
    match events with
    | [] => false
    | scrollY :: _ => negb (Qle_bool scrollY 50)
    end.
Proof.
  destruct events as [| y events]; [reflexivity |].
  change (Indicator.run Indicator.initial (y :: events))
    with (Indicator.run (Indicator.onScroll y Indicator.initial) events).
  rewrite indicator_disarmed by reflexivity.
  unfold Indicator.onScroll. simpl. now destruct (Qle_bool y 50).
Qed.

(** ** Page bootstrap *)

Section BootstrapFacts.

Variable create : Container -> Window -> Scroll.State.

Lemma initShowcases_loop (w : Window) : forall l done p,
  Page.heroes p = done ++ l ->
  let p' :=
    each (fun hero i p =>
            if negb (truthy (Page.initialized hero))
            then Page.mkState
                   (<[i := Page.mkHero (Page.container hero) (Some "true") (Page.showcase hero)]>
                      (Page.heroes p))
                   (Page.instances p ++ [create (Page.container hero) w])
            else p) l (length done) p in
  Page.heroes p' = done ++ map marked l /\
  Page.instances p' =
    Page.instances p ++
    map (fun hero => create (Page.container hero) w) (List.filter pendingHero l).
Proof.
  induction l as [| hero l IH]; intros done p E; simpl.
  - rewrite app_nil_r in E. rewrite !app_nil_r. auto.
  - specialize (IH (done ++ [marked hero])).
    rewrite length_app in IH. simpl in IH. rewrite Nat.add_1_r in IH.
    unfold pendingHero at 1, marked at 1.
    destruct (truthy (Page.initialized hero)) eqn:T; simpl.
    + destruct (IH p) as [H1 H2].
      { rewrite E. unfold marked. rewrite T. now rewrite <- app_assoc. }
      rewrite H1, H2. unfold marked at 1. rewrite T.
      now rewrite <- app_assoc.
    + match goal with |- context [each _ l _ ?q] => destruct (IH q) as [H1 H2] end.
      { simpl. rewrite E.
        replace (length done) with (length done + 0)%nat by lia.
        rewrite insert_app_r. simpl. unfold marked. rewrite T.
        now rewrite <- app_assoc. }
      rewrite H1, H2. simpl. unfold marked at 1. rewrite T.
      now rewrite <- !app_assoc.
Qed.

Lemma initShowcases_result (w : Window) (p : Page.State) :
  Page.heroes (Page.initShowcases create w p) = map marked (Page.heroes p) /\
  Page.instances (Page.initShowcases create w p) =
    Page.instances p ++
    map (fun hero => create (Page.container hero) w)
      (List.filter pendingHero (Page.heroes p)).
Proof.
  exact (initShowcases_loop w (Page.heroes p) [] p eq_refl).
Qed.



Lemma marked_showcase (hero : Page.Hero) : Page.showcase (marked hero) = Page.showcase hero.
Proof.
  unfold marked. now destruct (truthy (Page.initialized hero)).
Qed.


(** No container ever has a [_showcase] property. *)
Lemma run_no_showcase (es : list (Page.Event)) : forall p,
  Forall (fun hero => Page.showcase hero = None) (Page.heroes p) ->
  Forall (fun hero => Page.showcase hero = None) (Page.heroes (Page.run create p es)).
Proof.
  unfold Page.run.
  assert (I : forall w p, Forall (fun hero => Page.showcase hero = None) (Page.heroes p) ->
     Forall (fun hero => Page.showcase hero = None)
       (Page.heroes (Page.initShowcases create w p))).
  { intros w p H. destruct (initShowcases_result w p) as [-> _].
    apply Forall_forall. intros hero Hh.
    apply list_elem_of_fmap in Hh as (h & -> & Hin).
    rewrite marked_showcase. revert h Hin. now apply Forall_forall. }
  induction es as [| e es IH]; intros p H; simpl; [exact H |].
  apply IH. destruct e as [w | [i |] w | found]; simpl; auto.
  destruct (found ≫= _) as [hero |]; [| exact H].
  destruct (Page.showcase hero); [exact H | exact H].
Qed.

(** The constructor's result is never stored in [_showcase], so the
    listener of [shopify:section:unload] never reaches [destroy]: on a
    document as the markup gives it, after any sequence of bootstrap
    events, an unload event changes neither the containers nor any
    instance. *)
Theorem unload_never_destroys (containers : list (Container * option string))
    (es : list Page.Event) (found : option nat) :
  Page.step create (Page.run create (Page.fresh containers) es) (Page.SectionUnload found) =
    Page.run create (Page.fresh containers) es.
Proof.
  assert (H : Forall (fun hero => Page.showcase hero = None)
                (Page.heroes (Page.run create (Page.fresh containers) es))).
  { apply run_no_showcase. unfold Page.fresh. simpl.
    apply Forall_forall. intros hero Hh.
    now apply list_elem_of_fmap in Hh as (h & -> & _). }
  set (p := Page.run create (Page.fresh containers) es) in *.
  simpl. destruct found as [i |]; simpl; [| reflexivity].
  destruct (Page.heroes p !! i) as [hero |] eqn:L; [| reflexivity].
  assert (N : Page.showcase hero = None).
  { eapply Forall_forall in H; [exact H |]. eapply list_elem_of_lookup_2, L. }
  now rewrite N.
Qed.

End BootstrapFacts.

(** ** Scroll progress at the boundaries *)

Lemma clamp_finite (x : Q) :
  JS.max (JS.Fin 0) (JS.min (JS.Fin 1) (JS.Fin x)) = JS.Fin (clampQ x).
Proof. reflexivity. Qed.

Lemma clampQ_cases (x : Q) :
  ((x <= 0)%Q /\ (clampQ x == 0)%Q) \/
  ((0 <= x <= 1)%Q /\ (clampQ x == x)%Q) \/
  ((1 <= x)%Q /\ (clampQ x == 1)%Q).
Proof.
  unfold clampQ. cbv zeta.
  destruct (Qle_bool 1 x) eqn:E1.
  - apply Qle_bool_iff in E1. right. right. split; [exact E1 | reflexivity].
  - assert (L1 : (x < 1)%Q).
    { destruct (Qlt_le_dec x 1) as [L | L]; [exact L |].
      apply Qle_bool_iff in L. congruence. }
    destruct (Qle_bool 0 x) eqn:E0.
    + apply Qle_bool_iff in E0. right. left. split; [split; lra | reflexivity].
    + assert (L0 : (x < 0)%Q).
      { destruct (Qlt_le_dec x 0) as [L | L]; [exact L |].
        apply Qle_bool_iff in L. congruence. }
      left. split; [lra | reflexivity].
Qed.

Lemma clampQ_mono (x y : Q) : (x <= y)%Q -> (clampQ x <= clampQ y)%Q.
Proof.
  intros L.
  destruct (clampQ_cases x) as [[? ->] | [[? ->] | [? ->]]];
    destruct (clampQ_cases y) as [[? ->] | [[? ->] | [? ->]]]; lra.
Qed.

(** The target for a section higher than the viewport. *)
Lemma onScroll_tall_value (top : Q) (offsetHeight : Z) (w : Window) (s : Scroll.State) :
  innerHeight w < offsetHeight ->
  Scroll.targetScrollProgress (Scroll.onScroll top offsetHeight w s) =
    JS.Fin (clampQ (- top / (inject_Z offsetHeight + - inject_Z (innerHeight w)))).
Proof.
  intros H. unfold Scroll.onScroll. cbv zeta.
  cbn [Scroll.targetScrollProgress Scroll.set_targetScrollProgress].
  unfold JS.of_Z, JS.sub, JS.neg, JS.add, JS.div.
  destruct (Qcompare_spec (inject_Z offsetHeight + - inject_Z (innerHeight w)) 0) as [E | E | E].
  - exfalso. assert (Q0 : (inject_Z (innerHeight w) < inject_Z offsetHeight)%Q)
      by (now rewrite <- Zlt_Qlt). lra.
  - exfalso. assert (Q0 : (inject_Z (innerHeight w) < inject_Z offsetHeight)%Q)
      by (now rewrite <- Zlt_Qlt). lra.
  - apply clamp_finite.
Qed.

(** For a section higher than the viewport the target is 0 while the top
    of the section is at or below the top of the viewport, 1 once the
    section is scrolled by its height less the viewport's or more, the
    quotient of the two in between, and it never decreases as the section
    moves up. *)
Theorem onScroll_tall_section (top top' : Q) (offsetHeight : Z) (w : Window) (s : Scroll.State) :
  innerHeight w < offsetHeight ->
  let total := inject_Z (offsetHeight - innerHeight w) in
  exists q q',
    Scroll.targetScrollProgress (Scroll.onScroll top offsetHeight w s) = JS.Fin q /\
    Scroll.targetScrollProgress (Scroll.onScroll top' offsetHeight w s) = JS.Fin q' /\
    ((0 <= top)%Q -> (q == 0)%Q) /\
    ((total <= - top)%Q -> (q == 1)%Q) /\
    ((0 <= - top <= total)%Q -> (q == - top / total)%Q) /\
    ((top' <= top)%Q -> (q <= q')%Q).
Proof.
  intros H. cbv zeta.
  rewrite !onScroll_tall_value by exact H.
  eexists. eexists. split; [reflexivity |]. split; [reflexivity |].
  assert (T : (inject_Z (offsetHeight - innerHeight w) ==
               inject_Z offsetHeight + - inject_Z (innerHeight w))%Q).
  { unfold Z.sub. rewrite inject_Z_plus, inject_Z_opp. reflexivity. }
  assert (P : (0 < inject_Z offsetHeight + - inject_Z (innerHeight w))%Q).
  { assert (Q0 : (inject_Z (innerHeight w) < inject_Z offsetHeight)%Q)
      by (now rewrite <- Zlt_Qlt). lra. }
  rewrite T. set (d := (inject_Z offsetHeight + - inject_Z (innerHeight w))%Q) in *.
  clearbody d.
  assert (I : (0 < / d)%Q) by (now apply Qinv_lt_0_compat).
  assert (D : forall a, (a / d * d == a)%Q).
  { intros a. field. lra. }
  repeat split.
  - intros L. destruct (clampQ_cases (- top / d)) as [[? ->] | [[[A _] ->] | [A ->]]];
      try reflexivity.
    + assert (X : (- top / d <= 0)%Q).
      { unfold Qdiv. rewrite <- (Qmult_0_l (/ d)).
        apply Qmult_le_compat_r; lra. }
      lra.
    + assert (X : (- top / d <= 0)%Q).
      { unfold Qdiv. rewrite <- (Qmult_0_l (/ d)).
        apply Qmult_le_compat_r; lra. }
      lra.
  - intros L. assert (X : (1 <= - top / d)%Q).
    { apply Qle_shift_div_l; lra. }
    destruct (clampQ_cases (- top / d)) as [[? ->] | [[[_ A] ->] | [A ->]]]; lra.
  - intros [L0 L1].
    assert (X0 : (0 <= - top / d)%Q) by (apply Qle_shift_div_l; lra).
    assert (X1 : (- top / d <= 1)%Q) by (apply Qle_shift_div_r; lra).
    destruct (clampQ_cases (- top / d)) as [[? ->] | [[_ ->] | [A ->]]]; lra.
  - intros L. apply clampQ_mono. unfold Qdiv.
    apply Qmult_le_compat_r; lra.
Qed.

Lemma onScroll_tall_section_witness :
  exists q q',
    Scroll.targetScrollProgress (Scroll.onScroll (- (100 # 1)) 1000 desktop jumped) = JS.Fin q /\
    Scroll.targetScrollProgress (Scroll.onScroll (- (300 # 1)) 1000 desktop jumped) = JS.Fin q' /\
    (q == 1 # 4)%Q /\ (q <= q')%Q.
Proof.
  destruct (onScroll_tall_section (- (100 # 1)) (- (300 # 1)) 1000 desktop jumped)
    as (q & q' & E & E' & _ & _ & V & M).
  { simpl. lia. }
  exists q, q'. split; [exact E |]. split; [exact E' |]. split.
  - rewrite V; [reflexivity | split; discriminate].
  - apply M. discriminate.
Defined.

(** For a section lower than the viewport the divisor is negative: the
    target stays 0 as long as the top of the section is at or above the top
    of the viewport.  For a section as high as the viewport the divisor is
    zero: the target is 1 as soon as the top of the section is above the
    top of the viewport and 0 when it is below. *)
Theorem onScroll_short_section (top : Q) (offsetHeight : Z) (w : Window) (s : Scroll.State) :
  offsetHeight <= innerHeight w ->
  let target := Scroll.targetScrollProgress (Scroll.onScroll top offsetHeight w s) in
  (offsetHeight < innerHeight w -> (top <= 0)%Q ->
   exists q, target = JS.Fin q /\ (q == 0)%Q) /\
  (offsetHeight = innerHeight w -> (top < 0)%Q -> target = JS.Fin 1) /\
  (offsetHeight = innerHeight w -> (0 < top)%Q -> target = JS.Fin 0).
Proof.
  intros H. cbv zeta. unfold Scroll.onScroll. cbv zeta.
  cbn [Scroll.targetScrollProgress Scroll.set_targetScrollProgress].
  unfold JS.of_Z, JS.sub, JS.neg, JS.add, JS.div.
  set (d := (inject_Z offsetHeight + - inject_Z (innerHeight w))%Q).
  split; [| split].
  - intros L T.
    assert (N : (d < 0)%Q).
    { assert (Q0 : (inject_Z offsetHeight < inject_Z (innerHeight w))%Q)
        by (now rewrite <- Zlt_Qlt). unfold d. lra. }
    destruct (Qcompare_spec d 0) as [E | E | E]; try lra.
    rewrite clamp_finite. eexists. split; [reflexivity |].
    assert (X : (- top / d <= 0)%Q).
    { destruct (Qlt_le_dec 0 (- top / d)) as [G | G]; [exfalso | exact G].
      assert (M : (- top / d * d == - top)%Q) by (field; lra).
      assert (P : (0 < - top / d * - d)%Q) by (apply Qmult_lt_0_compat; lra).
      set (x := (- top / d)%Q) in *. clearbody x d.
      assert (R : (x * - d == - (x * d))%Q) by ring.
      lra. }
    destruct (clampQ_cases (- top / d)) as [[? ->] | [[[A _] ->] | [A ->]]]; lra.
  - intros E T.
    assert (Z0 : (d == 0)%Q) by (unfold d; rewrite E; ring).
    destruct (Qcompare_spec d 0) as [_ | C | C]; try lra.
    destruct (Qcompare_spec (- top) 0) as [C | C | C]; try lra.
    reflexivity.
  - intros E T.
    assert (Z0 : (d == 0)%Q) by (unfold d; rewrite E; ring).
    destruct (Qcompare_spec d 0) as [_ | C | C]; try lra.
    destruct (Qcompare_spec (- top) 0) as [C | C | C]; try lra.
    reflexivity.
Qed.

Lemma onScroll_short_section_witness :
  Scroll.targetScrollProgress (Scroll.onScroll (- (200 # 1)) 600 desktop jumped) = JS.Fin 1 /\
  exists q,
    Scroll.targetScrollProgress (Scroll.onScroll (- (200 # 1)) 400 desktop jumped) = JS.Fin q /\
    (q == 0)%Q.
Proof.
  split.
  - apply (onScroll_short_section (- (200 # 1)) 600 desktop jumped);
      [simpl; lia | reflexivity | reflexivity].
  - apply (onScroll_short_section (- (200 # 1)) 400 desktop jumped);
      [simpl; lia | simpl; lia | discriminate].
Defined.

(** ** The displayed progress under arbitrary events *)

Lemma smooth_within (target d : JS.number) :
  JS.within 0 1 target -> JS.within 0 1 d -> JS.within 0 1 (Scroll.smooth target d).
Proof.
  destruct target as [t | | |], d as [q | | |]; simpl; try tauto.
  unfold smoothing. intros [T0 T1] [D0 D1]. split; lra.
Qed.

(** A tick leaves the target alone and, on a visible instance with a frame
    callback registered, smooths the displayed progress; otherwise it
    leaves the displayed progress alone too. *)
Lemma frame_motion doc w s :
  Scroll.targetScrollProgress (Scroll.frame (renderOf doc) w s) =
    Scroll.targetScrollProgress s /\
  (Scroll.scrollProgress (Scroll.frame (renderOf doc) w s) = Scroll.scrollProgress s \/
   Scroll.scrollProgress (Scroll.frame (renderOf doc) w s) =
     Scroll.smooth (Scroll.targetScrollProgress s) (Scroll.scrollProgress s)).
Proof.
  split; [now rewrite frame_footprint by ignores |].
  destruct (Scroll.isInView s) eqn:V.
  - destruct (Scroll.frameRequests s) as [| n] eqn:F.
    + left. unfold Scroll.frame. now rewrite F.
    + right. apply frame_in_view; [exact V | lia].
  - left. now rewrite frame_paused.
Qed.

Lemma settle_footprint {X : Type} (g : Scroll.State -> X) k index s :
  Ignores g Scroll.set_inFlight ->
  (forall i s', g (k i s') = g s') ->
  g (Loader.settle k index s) = g s.
Proof.
  intros H1 H2. unfold Loader.settle. destruct (bool_decide _); [| reflexivity].
  now rewrite H2, H1.
Qed.

(** What the events other than ticks and scroll events do to the motion. *)
Lemma first_step_motion s e :
  match e with Placeholder.Frame _ | Placeholder.ScrollTo _ _ _ => False | _ => True end ->
  Scroll.scrollProgress (Placeholder.step s e) = Scroll.scrollProgress s /\
  Scroll.targetScrollProgress (Placeholder.step s e) = Scroll.targetScrollProgress s.
Proof.
  destruct e; cbn [Placeholder.step]; intros H; try contradiction.
  - split; reflexivity.
  - destruct (Scroll.observer s); [| auto].
    now rewrite !onIntersect_footprint by ignores.
  - now rewrite !destroy_footprint by ignores.
Qed.

Lemma second_step_motion s e :
  match e with Loader.Frame _ | Loader.ScrollTo _ _ _ => False | _ => True end ->
  Scroll.scrollProgress (Loader.step s e) = Scroll.scrollProgress s /\
  Scroll.targetScrollProgress (Loader.step s e) = Scroll.targetScrollProgress s.
Proof.
  destruct e; cbn [Loader.step]; intros H; try contradiction.
  - split; reflexivity.
  - destruct (Scroll.observer s); [| auto].
    now rewrite !onIntersect_footprint by ignores.
  - split; apply settle_footprint; try ignores;
      intros i s'; now rewrite onLoad_footprint by ignores.
  - split; apply settle_footprint; try ignores;
      intros i s'; now rewrite onError_footprint by ignores.
  - now rewrite !destroy_footprint by ignores.
Qed.

(** Once the displayed progress is [NaN] it stays [NaN]: no tick, scroll
    event, resize, visibility change, load or disposal brings a number
    back, in either scroll-driven document. *)
Theorem NaN_progress_is_permanent (s : Scroll.State) :
  Scroll.scrollProgress s = JS.NaN ->
  (forall es, Scroll.scrollProgress (Placeholder.run s es) = JS.NaN) /\
  (forall es, Scroll.scrollProgress (Loader.run s es) = JS.NaN).
Proof.
  intros N. split; intros es; revert s N.
  - unfold Placeholder.run. induction es as [| e es IH]; intros s N; simpl; [exact N |].
    apply IH. destruct e;
      try (match goal with |- context [Placeholder.step s ?e] =>
             rewrite (proj1 (first_step_motion s e I)) end; exact N).
    + cbn [Placeholder.step]. change Placeholder.render with (renderOf First).
      destruct (frame_motion First w s) as [_ [-> | ->]];
        [exact N | rewrite N; apply smooth_NaN_displayed].
    + exact N.
  - unfold Loader.run. induction es as [| e es IH]; intros s N; simpl; [exact N |].
    apply IH. destruct e;
      try (match goal with |- context [Loader.step s ?e] =>
             rewrite (proj1 (second_step_motion s e I)) end; exact N).
    + cbn [Loader.step]. change Loader.render with (renderOf Second).
      destruct (frame_motion Second w s) as [_ [-> | ->]];
        [exact N | rewrite N; apply smooth_NaN_displayed].
    + exact N.
Qed.

Lemma NaN_progress_is_permanent_witness :
  Scroll.scrollProgress
    (Placeholder.run
       (Scroll.frame Placeholder.render desktop
          (Scroll.onScroll 0 600 desktop (Placeholder.create sampleContainer desktop)))
       [Placeholder.ScrollTo (- (100 # 1)) 1000 desktop; Placeholder.Frame desktop;
        Placeholder.Resize phone; Placeholder.Frame phone]) = JS.NaN.
Proof.
  apply (NaN_progress_is_permanent
           (Scroll.frame Placeholder.render desktop
              (Scroll.onScroll 0 600 desktop (Placeholder.create sampleContainer desktop)))).
  vm_compute. reflexivity.
Defined.

(** The state handed to the first [animate] has the motion fields of the
    constructor. *)
Lemma create_unfold (c : Container) (w : Window) :
  (exists s0, Placeholder.create c w = Scroll.animate (renderOf First) w s0 /\
     Scroll.scrollProgress s0 = JS.Fin 0 /\ Scroll.targetScrollProgress s0 = JS.Fin 0 /\
     Scroll.isInView s0 = true) /\
  (exists s0, Loader.create c w = Scroll.animate (renderOf Second) w s0 /\
     Scroll.scrollProgress s0 = JS.Fin 0 /\ Scroll.targetScrollProgress s0 = JS.Fin 0 /\
     Scroll.isInView s0 = true).
Proof.
  assert (P : forall (X : Type) (g : Scroll.State -> X),
            Ignores g Scroll.set_renderer -> Ignores g Scroll.set_scenes ->
            Ignores g Scroll.set_camera -> Ignores g Scroll.set_loadedCount ->
            Ignores g Scroll.set_models -> Ignores g Scroll.set_store ->
            Ignores g Scroll.set_readySignals -> Ignores g Scroll.set_loadingEl ->
            Ignores g Scroll.set_observer ->
            g (Scroll.setupScrollObserver
                 (Placeholder.loadModels
                    (Scroll.setupCamera w
                       (Scroll.setupScenes Placeholder.lightRig
                          (Scroll.setupRenderer w (Scroll.construct c w)))))) =
            g (Scroll.construct c w)).
  { intros X g H1 H2 H3 H4 H5 H6 H7 H8 H9.
    unfold Scroll.setupScrollObserver. rewrite H9.
    unfold Placeholder.loadModels. cbv zeta.
    rewrite each_preserves.
    - rewrite H4. now apply setup_footprint.
    - intros x i s. rewrite countLoad_footprint by assumption.
      now apply createPlaceholderModel_footprint. }
  assert (L : forall (X : Type) (g : Scroll.State -> X),
            Ignores g Scroll.set_renderer -> Ignores g Scroll.set_scenes ->
            Ignores g Scroll.set_camera -> Ignores g Scroll.set_loadedCount ->
            Ignores g Scroll.set_inFlight -> Ignores g Scroll.set_observer ->
            g (Scroll.setupScrollObserver
                 (Loader.loadModels
                    (Scroll.setupCamera w
                       (Scroll.setupScenes Loader.lightRig
                          (Scroll.setupRenderer w (Scroll.construct c w)))))) =
            g (Scroll.construct c w)).
  { intros X g H1 H2 H3 H4 H5 H6.
    unfold Scroll.setupScrollObserver. rewrite H6.
    unfold Loader.loadModels. cbv zeta.
    rewrite each_preserves.
    - rewrite H4. now apply setup_footprint.
    - intros x i s. apply H5. }
  split; eexists; (split; [reflexivity |]).
  - rewrite !P by ignores. repeat split.
  - rewrite !L by ignores. repeat split.
Qed.

Lemma animate_motion doc w s :
  Scroll.isInView s = true ->
  Scroll.scrollProgress (Scroll.animate (renderOf doc) w s) =
    Scroll.smooth (Scroll.targetScrollProgress s) (Scroll.scrollProgress s) /\
  Scroll.targetScrollProgress (Scroll.animate (renderOf doc) w s) =
    Scroll.targetScrollProgress s.
Proof.
  intros V. split; [| now rewrite animate_footprint by ignores].
  unfold Scroll.animate. cbv zeta.
  change (Scroll.isInView (Scroll.set_frameRequests ?n s)) with (Scroll.isInView s).
  rewrite V. cbn [negb].
  rewrite render_footprint, rotateModels_footprint by ignores. reflexivity.
Qed.

Lemma create_in_range (c : Container) (w : Window) :
  ProgressInRange (Placeholder.create c w) /\ ProgressInRange (Loader.create c w).
Proof.
  destruct (create_unfold c w) as [(s1 & E1 & P1 & T1 & V1) (s2 & E2 & P2 & T2 & V2)].
  split.
  - rewrite E1. destruct (animate_motion First w s1 V1) as [A B].
    unfold ProgressInRange. rewrite A, B, P1, T1. simpl. unfold smoothing. lra.
  - rewrite E2. destruct (animate_motion Second w s2 V2) as [A B].
    unfold ProgressInRange. rewrite A, B, P2, T2. simpl. unfold smoothing. lra.
Qed.

(** As long as no scroll event hits the [0 / 0] case, the target and the
    displayed progress are numbers of [0, 1] at all times, whatever the
    events and their order, in both scroll-driven documents. *)
Theorem progress_stays_in_range (c : Container) (w : Window) :
  (forall es, Forall regularFirst es ->
     ProgressInRange (Placeholder.run (Placeholder.create c w) es)) /\
  (forall es, Forall regularSecond es ->
     ProgressInRange (Loader.run (Loader.create c w) es)).
Proof.
  destruct (create_in_range c w) as [I1 I2].
  split; intros es R.
  - revert R. generalize (Placeholder.create c w) I1. unfold Placeholder.run.
    induction es as [| e es IH]; intros s I R; simpl; [exact I |].
    apply Forall_cons in R as [Re R]. apply IH; [| exact R].
    destruct I as [IP IT]. unfold ProgressInRange.
    destruct e;
      try (match goal with |- context [Placeholder.step s ?e] =>
             destruct (first_step_motion s e I) as [-> ->] end; now split).
    + cbn [Placeholder.step]. change Placeholder.render with (renderOf First).
      destruct (frame_motion First w0 s) as [-> [-> | ->]];
        [now split | split; [now apply smooth_within | exact IT]].
    + cbn [Placeholder.step]. split.
      * now rewrite onScroll_footprint by ignores.
      * now apply onScroll_within.
  - revert R. generalize (Loader.create c w) I2. unfold Loader.run.
    induction es as [| e es IH]; intros s I R; simpl; [exact I |].
    apply Forall_cons in R as [Re R]. apply IH; [| exact R].
    destruct I as [IP IT]. unfold ProgressInRange.
    destruct e;
      try (match goal with |- context [Loader.step s ?e] =>
             destruct (second_step_motion s e I) as [-> ->] end; now split).
    + cbn [Loader.step]. change Loader.render with (renderOf Second).
      destruct (frame_motion Second w0 s) as [-> [-> | ->]];
        [now split | split; [now apply smooth_within | exact IT]].
    + cbn [Loader.step]. split.
      * now rewrite onScroll_footprint by ignores.
      * now apply onScroll_within.
Qed.

Lemma progress_stays_in_range_witness :
  ProgressInRange
    (Loader.run (Loader.create sampleContainer desktop)
       [Loader.ScrollTo (- (100 # 1)) 1000 desktop; Loader.Frame desktop;
        Loader.Failed 0; Loader.ScrollTo (- (900 # 1)) 1000 desktop; Loader.Frame desktop]).
Proof.
  apply (proj2 (progress_stays_in_range sampleContainer desktop)).
  repeat constructor; simpl; unfold regularScroll; simpl; intros [_ H]; lia.
Defined.

(** ** Rotation of the models *)

Lemma setRotationZ_idem r m : setRotationZ r (setRotationZ r m) = setRotationZ r m.
Proof. reflexivity. Qed.

Ltac membership :=
  try reflexivity;
  try (match goal with |- context [?l !! ?i] => now destruct (l !! i) end);
  exfalso;
  match goal with
  | H : ~ (_ ∈ _ :: _) |- _ => apply H; first [left | right; assumption]
  | H : _ ∈ _ :: _, N : ~ (_ ∈ _) |- _ =>
      apply elem_of_cons in H as [H | H]; [congruence | contradiction]
  end.

Lemma rotate_loop r h : forall (a : JS.array nat) i s,
  Scroll.store
    (JS.forEach (fun model _ s =>
                   Scroll.set_store (alter (setRotationZ r) model (Scroll.store s)) s) a i s) !! h =
    if bool_decide (Some h ∈ a) then setRotationZ r <$> Scroll.store s !! h
    else Scroll.store s !! h.
Proof.
  induction a as [| [x |] a IH]; intros i s; simpl.
  - reflexivity.
  - rewrite IH. cbn [Scroll.store Scroll.set_store].
    destruct (decide (x = h)) as [-> | N].
    + rewrite list_lookup_alter_eq. repeat case_bool_decide; membership.
    + rewrite list_lookup_alter_ne by exact N. repeat case_bool_decide; membership.
  - rewrite IH. repeat case_bool_decide; membership.
Qed.

(** A tick of a visible instance gives every model held in [models] the
    rotation [2 pi x displayed progress] about z, the same for all panels,
    and changes nothing else in the store: the other coordinates, the kind
    and the disposal state of these models, and the nodes that [models] no
    longer holds, are as before. *)
Theorem tick_rotates_every_model (doc : Document) (w : Window) (s : Scroll.State) :
  Scroll.isInView s = true ->
  (0 < Scroll.frameRequests s)%nat ->
  let s' := Scroll.frame (renderOf doc) w s in
  let r := rotationFor (Scroll.scrollProgress s') in
  (forall h, Some h ∈ Scroll.models s ->
     Scroll.store s' !! h = setRotationZ r <$> Scroll.store s !! h) /\
  (forall h, Some h ∉ Scroll.models s -> Scroll.store s' !! h = Scroll.store s !! h).
Proof.
  intros V F. cbv zeta.
  destruct (frame_in_view doc w s V F) as (P & _).
  rewrite P.
  assert (E : forall h,
    Scroll.store (Scroll.frame (renderOf doc) w s) !! h =
      if bool_decide (Some h ∈ Scroll.models s)
      then setRotationZ
             (rotationFor (Scroll.smooth (Scroll.targetScrollProgress s) (Scroll.scrollProgress s)))
             <$> Scroll.store s !! h
      else Scroll.store s !! h).
  { intros h. unfold Scroll.frame.
    destruct (Scroll.frameRequests s) as [| n]; [lia |].
    unfold Scroll.animate. cbv zeta.
    change (Scroll.isInView (Scroll.set_frameRequests ?a (Scroll.set_frameRequests ?b s)))
      with (Scroll.isInView s).
    rewrite V. cbn [negb].
    rewrite render_footprint by ignores.
    unfold Scroll.rotateModels. rewrite rotate_loop. reflexivity. }
  split; intros h H; rewrite E.
  - now rewrite bool_decide_true.
  - now rewrite bool_decide_false.
Qed.

Lemma tick_rotates_every_model_witness :
  Scroll.isInView jumped = true /\
  forall h, Some h ∈ Scroll.models jumped ->
    Scroll.store (Scroll.frame (renderOf First) desktop jumped) !! h =
      setRotationZ (rotationFor (Scroll.scrollProgress (Scroll.frame (renderOf First) desktop jumped)))
        <$> Scroll.store jumped !! h.
Proof.
  split; [reflexivity |].
  apply (tick_rotates_every_model First desktop jumped); [reflexivity | vm_compute; lia].
Defined.

(** ** Disposal, twice *)

Lemma free_all_lookup (hs : list nat) (st : list Three.Model) (i : nat) :
  foldr (fun h acc => alter free h acc) st hs !! i =
    if bool_decide (i ∈ hs) then free <$> st !! i else st !! i.
Proof.
  induction hs as [| k hs IH]; [reflexivity |].
  simpl. destruct (decide (k = i)) as [-> | N].
  - rewrite list_lookup_alter_eq, IH. repeat case_bool_decide; membership.
  - rewrite list_lookup_alter_ne by exact N. rewrite IH.
    repeat case_bool_decide; membership.
Qed.

Lemma disposeScenes_idem scs st :
  disposeScenes scs (disposeScenes scs st) = disposeScenes scs st.
Proof.
  unfold disposeScenes. apply list_eq. intros i.
  rewrite !free_all_lookup.
  destruct (bool_decide _); [| reflexivity].
  now destruct (st !! i).
Qed.

Lemma destroy_explicit (s : Scroll.State) :
  Scroll.destroy s =
    Scroll.mkState (Scroll.panels s) (Scroll.loadingEl s) (Scroll.canvasWrapper s)
      (Scroll.scenes s) (Scroll.models s)
      (disposeScenes (Scroll.scenes s) (Scroll.store s))
      (Scroll.isMobile s) (Scroll.scrollProgress s) (Scroll.targetScrollProgress s)
      (Scroll.isInView s) (Scroll.camera s) (Three.dispose (Scroll.renderer s)) false
      (Scroll.loadedCount s) (Scroll.inFlight s) (Scroll.readySignals s)
      (Scroll.frameRequests s).
Proof.
  unfold Scroll.destroy. destruct s as [? ? ? ? ? ? ? ? ? ? ? ? [|] ? ? ? ?]; reflexivity.
Qed.

(** Disposing twice is disposing once: the second [destroy] leaves the
    instance exactly as the first one left it. *)
Theorem destroy_twice (s : Scroll.State) :
  Scroll.destroy (Scroll.destroy s) = Scroll.destroy s.
Proof.
  rewrite (destroy_explicit (Scroll.destroy s)).
  rewrite !(destroy_explicit s).
  cbn [Scroll.panels Scroll.loadingEl Scroll.canvasWrapper Scroll.scenes Scroll.models
       Scroll.store Scroll.isMobile Scroll.scrollProgress Scroll.targetScrollProgress
       Scroll.isInView Scroll.camera Scroll.renderer Scroll.loadedCount Scroll.inFlight
       Scroll.readySignals Scroll.frameRequests].
  now rewrite disposeScenes_idem.
Qed.

(** ** The loads of the second document *)

Lemma content_fields (s s' : Scroll.State) :
  content s' = content s ->
  Scroll.panels s' = Scroll.panels s /\ Scroll.scenes s' = Scroll.scenes s /\
  Scroll.models s' = Scroll.models s /\ Scroll.loadedCount s' = Scroll.loadedCount s /\
  Scroll.inFlight s' = Scroll.inFlight s /\ Scroll.readySignals s' = Scroll.readySignals s /\
  Scroll.loadingEl s' = Scroll.loadingEl s.
Proof.
  unfold content. intros E. injection E. auto 10.
Qed.

Lemma countLoad_accounts s :
  Scroll.panels (Scroll.countLoad s) = Scroll.panels s /\
  Scroll.inFlight (Scroll.countLoad s) = Scroll.inFlight s /\
  Scroll.loadedCount (Scroll.countLoad s) = S (Scroll.loadedCount s) /\
  Scroll.readySignals (Scroll.countLoad s) =
    (if Nat.eqb (S (Scroll.loadedCount s)) (length (Scroll.panels s))
     then S (Scroll.readySignals s) else Scroll.readySignals s) /\
  Scroll.loadingEl (Scroll.countLoad s) =
    (if Nat.eqb (S (Scroll.loadedCount s)) (length (Scroll.panels s))
     then match Scroll.loadingEl s with Some _ => Some true | None => None end
     else Scroll.loadingEl s).
Proof.
  unfold Scroll.countLoad. cbv zeta.
  change (Scroll.loadedCount (Scroll.set_loadedCount ?v s)) with v.
  change (Scroll.panels (Scroll.set_loadedCount ?v s)) with (Scroll.panels s).
  destruct (Nat.eqb (S (Scroll.loadedCount s)) (length (Scroll.panels s))).
  - unfold Scroll.onModelsLoaded.
    change (Scroll.loadingEl (Scroll.set_loadedCount ?v s)) with (Scroll.loadingEl s).
    destruct (Scroll.loadingEl s) eqn:E; cbn; rewrite ?E; auto 10.
  - cbn. auto 10.
Qed.

Lemma filter_out_length (l : list nat) (x : nat) :
  NoDup l -> x ∈ l -> S (length (filter (fun i => i <> x) l)) = length l.
Proof.
  induction 1 as [| y l N ND IH]; intros I; [now apply elem_of_nil in I |].
  rewrite filter_cons. destruct (decide (y <> x)) as [D | D].
  - simpl. f_equal. apply IH. apply elem_of_cons in I as [E | I]; [now symmetry in E | exact I].
  - assert (y = x) as -> by (destruct (decide (y = x)) as [e | n]; [exact e | contradiction]).
    simpl. f_equal.
    clear IH ND I D. induction l as [| z l IH]; [reflexivity |].
    rewrite filter_cons. destruct (decide (z <> x)) as [D | D].
    + simpl. f_equal. apply IH. intros C. apply N. now right.
    + exfalso. apply N. assert (z = x) as -> by (destruct (decide (z = x)) as [e | n]; [exact e | contradiction]).
      left.
Qed.

Lemma inFlight_loop : forall (l : list Panel) i s,
  Scroll.inFlight
    (each (fun _ index s => Scroll.set_inFlight (Scroll.inFlight s ++ [index]) s) l i s) =
    Scroll.inFlight s ++ seq i (length l).
Proof.
  induction l as [| x l IH]; intros i s; simpl; [now rewrite app_nil_r |].
  rewrite IH. cbn [Scroll.inFlight Scroll.set_inFlight]. now rewrite <- app_assoc.
Qed.

(** The invariant of the loads, with the loading indicator: [present] tells
    whether the element exists. *)
Lemma loader_create_accounted (c : Container) (w : Window) :
  let s := Loader.create c w in
  LoadsAccounted s /\
  Scroll.panels s = default [] (datasetPanels c) /\
  Scroll.loadingEl s = (if hasLoadingEl c then Some false else None) /\
  Scroll.readySignals s = 0%nat.
Proof.
  cbv zeta. unfold Loader.create, Loader.init. cbv zeta.
  change Loader.render with (renderOf Second).
  set (s0 := Scroll.setupCamera w _).
  assert (P0 : Scroll.panels s0 = default [] (datasetPanels c) /\
               Scroll.inFlight s0 = [] /\ Scroll.readySignals s0 = 0%nat /\
               Scroll.loadingEl s0 = (if hasLoadingEl c then Some false else None)).
  { subst s0. rewrite !setup_footprint by ignores. repeat split. }
  destruct P0 as (Pp & Pi & Pr & Pl). clearbody s0.
  set (s1 := Scroll.setupScrollObserver (Loader.loadModels s0)).
  assert (P1 : Scroll.panels s1 = Scroll.panels s0 /\
               Scroll.inFlight s1 = seq 0 (length (Scroll.panels s0)) /\
               Scroll.loadedCount s1 = 0%nat /\
               Scroll.readySignals s1 = Scroll.readySignals s0 /\
               Scroll.loadingEl s1 = Scroll.loadingEl s0).
  { subst s1. unfold Scroll.setupScrollObserver, Loader.loadModels. cbv zeta.
    cbn [Scroll.panels Scroll.inFlight Scroll.loadedCount Scroll.readySignals
         Scroll.loadingEl Scroll.set_observer].
    rewrite inFlight_loop.
    rewrite !each_preserves by (intros; reflexivity).
    cbn [Scroll.panels Scroll.inFlight Scroll.loadedCount Scroll.readySignals
         Scroll.loadingEl Scroll.set_loadedCount].
    rewrite Pi. repeat split. }
  destruct P1 as (Qp & Qi & Qc & Qr & Ql). clearbody s1.
  assert (F : content (Scroll.animate (renderOf Second) w s1) = content s1)
    by (now rewrite animate_footprint by ignores).
  apply content_fields in F as (F1 & F2 & F3 & F4 & F5 & F6 & F7).
  split; [| split; [congruence | split; congruence]].
  constructor.
  - rewrite F5, Qi. apply NoDup_seq.
  - rewrite F4, F5, F1, Qi, Qc, Qp, length_seq. reflexivity.
  - rewrite F6, F5, F1, Qi, Qr, Pr, Qp. unfold readyWhen.
    destruct (Scroll.panels s0); reflexivity.
Qed.

Lemma settle_accounted (ok : bool) (index : nat) (s : Scroll.State) (present : bool) :
  LoadsAccounted s ->
  Scroll.loadingEl s =
    (if present then Some (negb (Nat.eqb (Scroll.readySignals s) 0)) else None) ->
  let s' := Loader.settle (if ok then Loader.onLoad else Loader.onError) index s in
  LoadsAccounted s' /\
  Scroll.panels s' = Scroll.panels s /\
  Scroll.loadingEl s' =
    (if present then Some (negb (Nat.eqb (Scroll.readySignals s') 0)) else None).
Proof.
  intros [ND C R] L. cbv zeta. unfold Loader.settle.
  case_bool_decide as I; [| split; [now constructor | auto]].
  set (s1 := Scroll.set_inFlight _ s).
  assert (K : exists s2,
     (if ok then Loader.onLoad else Loader.onError) index s1 = Scroll.countLoad s2 /\
     Scroll.panels s2 = Scroll.panels s /\
     Scroll.inFlight s2 = filter (fun i => i <> index) (Scroll.inFlight s) /\
     Scroll.loadedCount s2 = Scroll.loadedCount s /\
     Scroll.readySignals s2 = Scroll.readySignals s /\
     Scroll.loadingEl s2 = Scroll.loadingEl s).
  { destruct ok; eexists; (split; [reflexivity |]).
    - repeat split.
    - rewrite !createPlaceholderModel_footprint by ignores. repeat split. }
  destruct K as (s2 & -> & Kp & Ki & Kc & Kr & Kl). clearbody s1.
  destruct (countLoad_accounts s2) as (Ap & Ai & Ac & Ar & Al).
  pose proof (filter_out_length _ _ ND I) as FL.
  assert (Z0 : Scroll.readySignals s = 0%nat).
  { rewrite R. destruct (Scroll.inFlight s); [now apply elem_of_nil in I | reflexivity]. }
  rewrite Ap, Kp.
  assert (RS : Scroll.readySignals (Scroll.countLoad s2) =
               readyWhen (filter (fun i => i <> index) (Scroll.inFlight s)) (Scroll.panels s)).
  { rewrite Ar, Kc, Kp, Kr, Z0. unfold readyWhen.
    destruct (filter (fun i => i <> index) (Scroll.inFlight s)) as [| y f] eqn:F.
    - simpl in FL. rewrite <- FL in C.
      replace (Scroll.loadedCount s + 1)%nat with (S (Scroll.loadedCount s)) in C by lia.
      rewrite C, Nat.eqb_refl. destruct (Scroll.panels s); [discriminate | reflexivity].
    - simpl in FL. destruct (Nat.eqb_spec (S (Scroll.loadedCount s)) (length (Scroll.panels s)));
        [lia | reflexivity]. }
  split; [| split; [reflexivity |]].
  - constructor.
    + rewrite Ai, Ki. now apply NoDup_filter.
    + rewrite Ac, Ai, Ap, Ki, Kc, Kp. lia.
    + rewrite Ai, Ap, Ki, Kp. exact RS.
  - rewrite Al, Ar, Kc, Kp, Kr, Kl, L, Z0.
    destruct (Nat.eqb (S (Scroll.loadedCount s)) (length (Scroll.panels s)));
      destruct present; reflexivity.
Qed.

(** In the second document the ready signal follows the loads: at any
    time the settled and the pending loads add up to the number of panels,
    [onModelsLoaded] has been called once if every load has settled (by
    success or by failure, in any order) and there is a panel, not at all
    otherwise, and the loading indicator, when it exists, is faded out
    exactly in the first case. *)
Theorem ready_signal_follows_the_loads (c : Container) (w : Window) (es : list Loader.Event) :
  let s := Loader.run (Loader.create c w) es in
  (Scroll.loadedCount s + length (Scroll.inFlight s))%nat =
    length (default [] (datasetPanels c)) /\
  Scroll.readySignals s = readyWhen (Scroll.inFlight s) (default [] (datasetPanels c)) /\
  Scroll.loadingEl s =
    (if hasLoadingEl c then Some (negb (Nat.eqb (Scroll.readySignals s) 0)) else None).
Proof.
  cbv zeta.
  destruct (loader_create_accounted c w) as (A & P & L & Z0).
  assert (L' : Scroll.loadingEl (Loader.create c w) =
     (if hasLoadingEl c
      then Some (negb (Nat.eqb (Scroll.readySignals (Loader.create c w)) 0)) else None)).
  { now rewrite L, Z0. }
  clear L Z0. rewrite <- P.
  revert A P L'. generalize (Loader.create c w). unfold Loader.run.
  induction es as [| e es IH]; intros s A P L; simpl.
  - destruct A as [_ C R]. auto.
  - assert (K : LoadsAccounted (Loader.step s e) /\
                Scroll.panels (Loader.step s e) = Scroll.panels s /\
                Scroll.loadingEl (Loader.step s e) =
                  (if hasLoadingEl c
                   then Some (negb (Nat.eqb (Scroll.readySignals (Loader.step s e)) 0))
                   else None)).
    { assert (E : forall s', content s' = content s ->
                  LoadsAccounted s' /\ Scroll.panels s' = Scroll.panels s /\
                  Scroll.loadingEl s' =
                    (if hasLoadingEl c
                     then Some (negb (Nat.eqb (Scroll.readySignals s') 0)) else None)).
      { intros s' E.
        apply content_fields in E as (E1 & E2 & E3 & E4 & E5 & E6 & E7).
        destruct A as [ND C R].
        split; [constructor; congruence | split; [exact E1 | now rewrite E7, E6]]. }
      destruct e; cbn [Loader.step].
      - apply E. change Loader.render with (renderOf Second).
        now rewrite frame_footprint by ignores.
      - apply E. reflexivity.
      - apply E. reflexivity.
      - apply E. destruct (Scroll.observer s); [| reflexivity].
        now rewrite onIntersect_footprint by ignores.
      - apply (settle_accounted true index s (hasLoadingEl c) A L).
      - apply (settle_accounted false index s (hasLoadingEl c) A L).
      - apply E. now rewrite destroy_footprint by ignores. }
    destruct K as (KA & KP & KL).
    rewrite <- KP. apply IH; [exact KA | congruence | exact KL].
Qed.

(** A load that settles touches its own panel only. *)
Lemma settled_load_is_local (ok : bool) (index j : nat) (s : Scroll.State) :
  j <> index ->
  let s' := Loader.settle (if ok then Loader.onLoad else Loader.onError) index s in
  JS.get (Scroll.models s') j = JS.get (Scroll.models s) j /\
  Scroll.scenes s' !! j = Scroll.scenes s !! j /\
  (forall h m, Scroll.store s !! h = Some m -> Scroll.store s' !! h = Some m).
Proof.
  intros N. cbv zeta. unfold Loader.settle.
  case_bool_decide as I; [| auto].
  destruct ok.
  - unfold Loader.onLoad. cbv zeta.
    match goal with |- context [Scroll.countLoad ?x] =>
      destruct (countLoad_content x) as (-> & -> & ->)
    end.
    cbn [Scroll.models Scroll.scenes Scroll.store Scroll.set_scenes Scroll.set_models
         Scroll.set_store Scroll.set_inFlight].
    rewrite get_set_ne by congruence.
    rewrite list_lookup_alter_ne by congruence.
    repeat split. intros h m H. now apply lookup_app_l_Some.
  - unfold Loader.onError.
    match goal with |- context [Scroll.countLoad ?x] =>
      destruct (countLoad_content x) as (-> & -> & ->)
    end.
    unfold Scroll.createPlaceholderModel. cbv zeta.
    cbn [Scroll.models Scroll.scenes Scroll.store Scroll.set_scenes Scroll.set_models
         Scroll.set_store Scroll.set_inFlight].
    rewrite get_set_ne by congruence.
    rewrite list_lookup_alter_ne by congruence.
    repeat split. intros h m H. now apply lookup_app_l_Some.
Qed.

(** The loads of the panels are independent: when the load of a panel
    settles, by success or by failure, the model and the scene of every
    other panel are as before and every node already in the store is
    unchanged. *)
Theorem loads_are_independent (index j : nat) (s : Scroll.State) :
  j <> index ->
  (JS.get (Scroll.models (Loader.step s (Loader.Loaded index))) j = JS.get (Scroll.models s) j /\
   Scroll.scenes (Loader.step s (Loader.Loaded index)) !! j = Scroll.scenes s !! j /\
   (forall h m, Scroll.store s !! h = Some m ->
                Scroll.store (Loader.step s (Loader.Loaded index)) !! h = Some m)) /\
  (JS.get (Scroll.models (Loader.step s (Loader.Failed index))) j = JS.get (Scroll.models s) j /\
   Scroll.scenes (Loader.step s (Loader.Failed index)) !! j = Scroll.scenes s !! j /\
   (forall h m, Scroll.store s !! h = Some m ->
                Scroll.store (Loader.step s (Loader.Failed index)) !! h = Some m)).
Proof.
  intros N. split.
  - exact (settled_load_is_local true index j s N).
  - exact (settled_load_is_local false index j s N).
Qed.

Lemma loads_are_independent_witness :
  let s := Loader.create sampleContainer desktop in
  JS.get (Scroll.models (Loader.run s [Loader.Failed 0; Loader.Loaded 1])) 0 =
    JS.get (Scroll.models (Loader.step s (Loader.Failed 0))) 0.
Proof.
  cbv zeta.
  exact (proj1 (proj1 (loads_are_independent 1 0
                         (Loader.step (Loader.create sampleContainer desktop) (Loader.Failed 0))
                         ltac:(discriminate)))).
Defined.

(** ** One scene per panel *)

Lemma accents_alter (c : Three.Child) (i : nat) (l : list Three.Scene) :
  map Three.accentColor (alter (Three.sceneAdd c) i l) = map Three.accentColor l.
Proof.
  revert i. induction l as [| sc l IH]; intros [| i]; try reflexivity.
  change (Three.accentColor sc :: map Three.accentColor (alter (Three.sceneAdd c) i l) =
          Three.accentColor sc :: map Three.accentColor l).
  now rewrite IH.
Qed.

Lemma scenes_loop (rig : list string) : forall (l : list Panel) i s,
  Scroll.scenes
    (each (fun panel _ s => Scroll.set_scenes (Scroll.scenes s ++ [newScene rig panel]) s) l i s) =
    Scroll.scenes s ++ map (newScene rig) l.
Proof.
  induction l as [| x l IH]; intros i s; simpl; [now rewrite app_nil_r |].
  rewrite IH. cbn [Scroll.scenes Scroll.set_scenes]. now rewrite <- app_assoc.
Qed.

Lemma createPlaceholderModel_accents index s :
  accents (Scroll.createPlaceholderModel index s) = accents s /\
  Scroll.panels (Scroll.createPlaceholderModel index s) = Scroll.panels s.
Proof.
  unfold accents, Scroll.createPlaceholderModel. cbv zeta.
  cbn [Scroll.scenes Scroll.set_scenes Scroll.panels].
  now rewrite accents_alter.
Qed.

Lemma onLoad_accents index s :
  accents (Loader.onLoad index s) = accents s.
Proof.
  unfold accents, Loader.onLoad. cbv zeta.
  match goal with |- context [Scroll.countLoad ?x] =>
    destruct (countLoad_content x) as (_ & -> & _)
  end.
  cbn [Scroll.scenes Scroll.set_scenes]. now rewrite accents_alter.
Qed.

Lemma onError_accents index s :
  accents (Loader.onError index s) = accents s.
Proof.
  unfold Loader.onError.
  change (accents (Scroll.countLoad ?x)) with (map Three.accentColor (Scroll.scenes (Scroll.countLoad x))).
  match goal with |- context [Scroll.countLoad ?x] =>
    destruct (countLoad_content x) as (_ & -> & _)
  end.
  apply createPlaceholderModel_accents.
Qed.

Lemma setup_accents (rig : list string) (c : Container) (w : Window) :
  accents (Scroll.setupCamera w (Scroll.setupScenes rig
             (Scroll.setupRenderer w (Scroll.construct c w)))) =
    map panelAccentColor (default [] (datasetPanels c)).
Proof.
  unfold accents, Scroll.setupCamera, Scroll.setupScenes.
  cbn [Scroll.scenes Scroll.set_camera]. rewrite scenes_loop.
  cbn. induction (default [] (datasetPanels c)) as [| p l IH]; [reflexivity |].
  simpl. now rewrite IH.
Qed.

Lemma create_accents (c : Container) (w : Window) :
  accents (Placeholder.create c w) = map panelAccentColor (default [] (datasetPanels c)) /\
  accents (Loader.create c w) = map panelAccentColor (default [] (datasetPanels c)).
Proof.
  split; unfold Placeholder.create, Loader.create, Placeholder.init, Loader.init; cbv zeta.
  - change Placeholder.render with (renderOf First).
    rewrite animate_footprint by ignores.
    unfold Scroll.setupScrollObserver, Placeholder.loadModels. cbv zeta.
    change (accents (Scroll.set_observer true ?x)) with (accents x).
    rewrite each_preserves.
    + change (accents (Scroll.set_loadedCount 0%nat ?x)) with (accents x).
      apply setup_accents.
    + intros x i s. unfold accents at 1.
      destruct (countLoad_content (Scroll.createPlaceholderModel i s)) as (_ & -> & _).
      apply createPlaceholderModel_accents.
  - change Loader.render with (renderOf Second).
    rewrite animate_footprint by ignores.
    unfold Scroll.setupScrollObserver, Loader.loadModels. cbv zeta.
    change (accents (Scroll.set_observer true ?x)) with (accents x).
    rewrite each_preserves by (intros; reflexivity).
    change (accents (Scroll.set_loadedCount 0%nat ?x)) with (accents x).
    apply setup_accents.
Qed.

(** There is one scene per panel at all times, in the order of the panel
    configuration and with the accent colour of its panel: the construction
    builds them so, and no tick, event, load or disposal adds, removes or
    reorders a scene. *)
Theorem one_scene_per_panel (c : Container) (w : Window) :
  (forall es, accents (Placeholder.run (Placeholder.create c w) es) =
              map panelAccentColor (default [] (datasetPanels c))) /\
  (forall es, accents (Loader.run (Loader.create c w) es) =
              map panelAccentColor (default [] (datasetPanels c))).
Proof.
  destruct (create_accents c w) as [A1 A2].
  split; intros es.
  - rewrite <- A1. generalize (Placeholder.create c w). unfold Placeholder.run.
    induction es as [| e es IH]; intros s; simpl; [reflexivity |].
    rewrite IH. destruct e; cbn [Placeholder.step]; try reflexivity.
    + change Placeholder.render with (renderOf First).
      now rewrite frame_footprint by ignores.
    + destruct (Scroll.observer s); [| reflexivity].
      now rewrite onIntersect_footprint by ignores.
    + now rewrite destroy_footprint by ignores.
  - rewrite <- A2. generalize (Loader.create c w). unfold Loader.run.
    induction es as [| e es IH]; intros s; simpl; [reflexivity |].
    rewrite IH. destruct e; cbn [Loader.step]; try reflexivity.
    + change Loader.render with (renderOf Second).
      now rewrite frame_footprint by ignores.
    + destruct (Scroll.observer s); [| reflexivity].
      now rewrite onIntersect_footprint by ignores.
    + unfold Loader.settle. destruct (bool_decide _); [| reflexivity].
      now rewrite onLoad_accents.
    + unfold Loader.settle. destruct (bool_decide _); [| reflexivity].
      now rewrite onError_accents.
    + now rewrite destroy_footprint by ignores.
Qed.

(** ** The placeholders of the first document *)

Lemma set_at_end {A : Type} (l : list A) (v : A) :
  JS.set (Some <$> l) (length l) v = (Some <$> l) ++ [Some v].
Proof.
  induction l as [| x l IH]; [reflexivity |].
  change (Some x :: JS.set (Some <$> l) (length l) v = Some x :: ((Some <$> l) ++ [Some v])).
  now rewrite IH.
Qed.

Lemma sceneHandles_add (h : nat) (sc : Three.Scene) :
  sceneHandles (Three.sceneAdd (Three.ModelRef h) sc) = sceneHandles sc ++ [h].
Proof.
  unfold sceneHandles, Three.sceneAdd. simpl. now rewrite omap_app.
Qed.

Lemma sceneHandles_new (rig : list string) (p : Panel) : sceneHandles (newScene rig p) = [].
Proof.
  unfold sceneHandles, newScene. simpl.
  induction rig as [| x rig IH]; [reflexivity | exact IH].
Qed.

Lemma filled_step (i : nat) (s : Scroll.State) :
  Filled i s ->
  (i < length (Scroll.panels s))%nat ->
  Filled (S i) (Scroll.countLoad (Scroll.createPlaceholderModel i s)) /\
  Scroll.panels (Scroll.countLoad (Scroll.createPlaceholderModel i s)) = Scroll.panels s.
Proof.
  intros [Hs Hk Hm Hc Hh Hr] Lt.
  set (s1 := Scroll.createPlaceholderModel i s).
  assert (P1 : Scroll.panels s1 = Scroll.panels s) by reflexivity.
  assert (C1 : Scroll.loadedCount s1 = i) by exact Hc.
  assert (R1 : Scroll.readySignals s1 = 0%nat).
  { change (Scroll.readySignals s1) with (Scroll.readySignals s). rewrite Hr.
    destruct (Nat.eqb_spec i (length (Scroll.panels s))); [lia | reflexivity]. }
  assert (S1 : Scroll.store s1 =
               Scroll.store s ++
               [Three.mkModel Three.PlaceholderModel (JS.Fin 0) (JS.Fin 0) (JS.Fin 0) false])
    by reflexivity.
  assert (M1 : Scroll.models s1 = Some <$> seq 0 (S i)).
  { change (Scroll.models s1) with (JS.set (Scroll.models s) i (length (Scroll.store s))).
    rewrite Hm, Hs. rewrite <- (length_seq i 0) at 2.
    rewrite set_at_end, seq_S, fmap_app. reflexivity. }
  assert (H1 : sceneHandles <$> Scroll.scenes s1 =
               ((fun k => [k]) <$> seq 0 (S i)) ++
               replicate (length (Scroll.panels s) - S i) []).
  { change (Scroll.scenes s1)
      with (alter (Three.sceneAdd (Three.ModelRef (length (Scroll.store s)))) i (Scroll.scenes s)).
    rewrite Hs.
    rewrite (list_fmap_alter sceneHandles (Three.sceneAdd (Three.ModelRef i))
               (fun hs => hs ++ [i])).
    - rewrite Hh.
      replace (length (Scroll.panels s) - i)%nat
        with (S (length (Scroll.panels s) - S i)) by lia.
      rewrite replicate_S.
      assert (Li : length ((fun k : nat => [k]) <$> seq 0 i) = i)
        by (now rewrite length_fmap, length_seq).
      rewrite <- (Nat.add_0_r i) at 1. rewrite <- Li at 1.
      rewrite alter_app_r. simpl alter.
      rewrite seq_S, fmap_app, <- app_assoc. reflexivity.
    - apply Forall_forall. intros sc _. apply sceneHandles_add. }
  destruct (countLoad_accounts s1) as (Ap & _ & Ac & Ar & _).
  destruct (countLoad_content s1) as (Bm & Bs & Bst).
  split; [| now rewrite Ap].
  constructor.
  - rewrite Bst, S1, length_app, Hs. simpl. lia.
  - rewrite Bst, S1. apply Forall_app_2; [exact Hk | now constructor].
  - now rewrite Bm.
  - now rewrite Ac, C1.
  - now rewrite Bs, Ap, P1.
  - rewrite Ar, Ap, C1, P1, R1.
    destruct (Nat.eqb (S i) (length (Scroll.panels s))); reflexivity.
Qed.

Lemma filled_loop : forall (l : list Panel) i s,
  Filled i s ->
  (i + length l)%nat = length (Scroll.panels s) ->
  Filled (i + length l)
    (each (fun _ index s => Scroll.countLoad (Scroll.createPlaceholderModel index s)) l i s).
Proof.
  induction l as [| x l IH]; intros i s F E; simpl.
  - now rewrite Nat.add_0_r.
  - simpl in E. destruct (filled_step i s F ltac:(lia)) as [F' P'].
    replace (i + S (length l))%nat with (S i + length l)%nat by lia.
    apply IH; [exact F' |]. rewrite P'. lia.
Qed.

(** After the construction of the first document every panel has its own
    placeholder: with [n] panels, [models] holds the nodes 0 to [n - 1] in
    order and without holes, each one a placeholder, scene [k] holds node
    [k] and no other model, and the ready signal has been given once if
    there is a panel at all. *)
Theorem every_panel_gets_its_placeholder (c : Container) (w : Window) :
  let n := length (default [] (datasetPanels c)) in
  let s := Placeholder.create c w in
  Scroll.models s = Some <$> seq 0 n /\
  sceneHandles <$> Scroll.scenes s = (fun k => [k]) <$> seq 0 n /\
  length (Scroll.store s) = n /\
  Forall (fun m => Three.kind m = Three.PlaceholderModel) (Scroll.store s) /\
  Scroll.readySignals s = (if Nat.eqb n 0 then 0 else 1)%nat.
Proof.
  cbv zeta. unfold Placeholder.create, Placeholder.init. cbv zeta.
  change Placeholder.render with (renderOf First).
  set (s0 := Scroll.setupCamera w _).
  assert (F0 : Filled 0 (Scroll.set_loadedCount 0 s0) /\
               Scroll.panels s0 = default [] (datasetPanels c)).
  { assert (Sc : Scroll.scenes s0 =
                 map (newScene Placeholder.lightRig) (default [] (datasetPanels c))).
    { subst s0. unfold Scroll.setupCamera, Scroll.setupScenes.
      cbn [Scroll.scenes Scroll.set_camera]. now rewrite scenes_loop. }
    assert (G : Scroll.panels s0 = default [] (datasetPanels c) /\
                Scroll.store s0 = [] /\ Scroll.models s0 = [] /\
                Scroll.readySignals s0 = 0%nat).
    { subst s0. rewrite !setup_footprint by ignores. repeat split. }
    destruct G as (Gp & Gs & Gm & Gr). split; [| exact Gp].
    constructor; cbn [Scroll.store Scroll.models Scroll.loadedCount Scroll.scenes
                      Scroll.panels Scroll.readySignals Scroll.set_loadedCount].
    - now rewrite Gs.
    - rewrite Gs. constructor.
    - now rewrite Gm.
    - reflexivity.
    - rewrite Sc, Gp, Nat.sub_0_r. simpl. clear.
      induction (default [] (datasetPanels c)) as [| p l IH]; [reflexivity |].
      simpl. rewrite sceneHandles_new. f_equal. exact IH.
    - rewrite Gr. now destruct (Nat.eqb 0 (length (Scroll.panels s0))). }
  destruct F0 as [F0 P0]. clearbody s0.
  pose proof (filled_loop (Scroll.panels (Scroll.set_loadedCount 0 s0)) 0
                (Scroll.set_loadedCount 0 s0) F0 eq_refl) as F.
  change (Placeholder.loadModels s0)
    with (each (fun _ index s => Scroll.countLoad (Scroll.createPlaceholderModel index s))
            (Scroll.panels (Scroll.set_loadedCount 0 s0)) 0%nat (Scroll.set_loadedCount 0 s0)).
  set (s1 := each _ _ _ _) in *.
  assert (P1 : Scroll.panels s1 = Scroll.panels s0).
  { subst s1. rewrite each_preserves; [reflexivity |].
    intros x i s. now rewrite countLoad_footprint by ignores. }
  clearbody s1.
  change (Scroll.panels (Scroll.set_loadedCount 0 s0)) with (Scroll.panels s0) in F.
  rewrite P0 in *. simpl Nat.add in F.
  destruct F as [Hs Hk Hm Hc Hh Hr].
  rewrite !animate_footprint by ignores.
  unfold Scroll.setupScrollObserver.
  cbn [Scroll.models Scroll.scenes Scroll.readySignals Scroll.set_observer].
  split; [exact Hm |]. split.
  { rewrite Hh, P1, Nat.sub_diag. simpl. now rewrite app_nil_r. }
  assert (St : length (Scroll.store (Scroll.animate (renderOf First) w (Scroll.set_observer true s1))) =
               length (default [] (datasetPanels c)) /\
               Forall (fun m => Three.kind m = Three.PlaceholderModel)
                 (Scroll.store (Scroll.animate (renderOf First) w (Scroll.set_observer true s1)))).
  { unfold Scroll.animate. cbv zeta.
    destruct (negb (Scroll.isInView _)); [split; [exact Hs | exact Hk] |].
    rewrite render_footprint by ignores.
    unfold Scroll.rotateModels.
    apply (forEach_inv (fun s => length (Scroll.store s) = length (default [] (datasetPanels c)) /\
                                 Forall (fun m => Three.kind m = Three.PlaceholderModel)
                                   (Scroll.store s))).
    - intros x i s [A B]. cbn [Scroll.store Scroll.set_store]. split.
      + now rewrite length_alter.
      + apply Forall_alter; [exact B |]. intros m _ K. exact K.
    - split; [exact Hs | exact Hk]. }
  destruct St as [St1 St2].
  split; [exact St1 |]. split; [exact St2 |].
  rewrite ?(animate_footprint Scroll.readySignals) by ignores.
  change (Scroll.readySignals (Scroll.set_observer true s1)) with (Scroll.readySignals s1).
  rewrite Hr, P1, Nat.eqb_refl. simpl.
  now destruct (Nat.eqb (length (default [] (datasetPanels c))) 0).
Qed.

(** ** Idle rotation of the hover-driven variant *)

Lemma hover_render_store (p : Hover.Page) (s : Hover.State) :
  Hover.store (Hover.stateOf (Hover.render p s)) = Hover.store s.
Proof.
  unfold Hover.render, Hover.draw. cbv zeta.
  destruct (Hover.isMobile _);
    cbn [Hover.scenes Hover.set_renderer];
    destruct (Hover.scenes s !! 0%nat); cbn [Hover.scenes Hover.set_renderer];
    try reflexivity;
    destruct (Hover.scenes s !! 1%nat); cbn [Hover.scenes Hover.set_renderer];
    reflexivity.
Qed.

Lemma hover_rotate_loop (delta : Q) (h : nat) : forall (a : JS.array nat) i s,
  NoDup (handles a) ->
  let s' :=
    JS.forEach (fun model index s =>
                  if negb (Hover.hovered s index)
                  then Hover.set_store
                         (alter (Hover.spin delta (Hover.rotationSpeed s)) model (Hover.store s)) s
                  else s) a i s in
  Hover.isHovered s' = Hover.isHovered s /\
  Hover.rotationSpeed s' = Hover.rotationSpeed s /\
  (forall k, a !! k = Some (Some h) ->
     Hover.store s' !! h =
       if Hover.hovered s (i + k) then Hover.store s !! h
       else Hover.spin delta (Hover.rotationSpeed s) <$> Hover.store s !! h) /\
  (Some h ∉ a -> Hover.store s' !! h = Hover.store s !! h).
Proof.
  induction a as [| [x |] a IH]; intros i s ND; cbv zeta.
  - simpl. repeat split; auto. intros k K. now destruct k.
  - simpl JS.forEach.
    set (s1 := if negb (Hover.hovered s i)
               then Hover.set_store
                      (alter (Hover.spin delta (Hover.rotationSpeed s)) x (Hover.store s)) s
               else s).
    assert (E1 : Hover.isHovered s1 = Hover.isHovered s /\
                 Hover.rotationSpeed s1 = Hover.rotationSpeed s).
    { subst s1. now destruct (negb (Hover.hovered s i)). }
    destruct E1 as [E1 E2].
    assert (Hv : forall j, Hover.hovered s1 j = Hover.hovered s j).
    { intros j. unfold Hover.hovered. now rewrite E1. }
    assert (S1 : forall y, y <> x -> Hover.store s1 !! y = Hover.store s !! y).
    { intros y N. subst s1. destruct (negb (Hover.hovered s i)); [| reflexivity].
      cbn [Hover.store Hover.set_store]. now rewrite list_lookup_alter_ne by congruence. }
    assert (Sx : Hover.store s1 !! x =
                 if Hover.hovered s i then Hover.store s !! x
                 else Hover.spin delta (Hover.rotationSpeed s) <$> Hover.store s !! x).
    { subst s1. destruct (Hover.hovered s i); [reflexivity |].
      cbn [negb Hover.store Hover.set_store]. apply list_lookup_alter_eq. }
    unfold handles in ND. simpl in ND. apply NoDup_cons in ND as [Nx ND].
    destruct (IH (S i) s1 ND) as (I1 & I2 & I3 & I4).
    clearbody s1.
    split; [congruence |]. split; [congruence |]. split.
    + intros [| k] K.
      * simpl in K. injection K as ->. rewrite Nat.add_0_r.
        rewrite I4; [exact Sx |].
        intros C. apply Nx. unfold handles. apply list_elem_of_omap.
        exists (Some h). now split.
      * simpl in K. rewrite (I3 k K), Hv, E2.
        assert (N : h <> x).
        { intros ->. apply Nx. apply list_elem_of_omap. exists (Some x).
          split; [eapply list_elem_of_lookup_2; exact K | reflexivity]. }
        rewrite (S1 h N). now replace (S i + k)%nat with (i + S k)%nat by lia.
    + intros N. rewrite I4.
      * apply S1. intros ->. apply N. left.
      * intros C. apply N. now right.
  - simpl JS.forEach.
    destruct (IH (S i) s ND) as (I1 & I2 & I3 & I4).
    split; [exact I1 |]. split; [exact I2 |]. split.
    + intros [| k] K; [discriminate |].
      simpl in K. rewrite (I3 k K).
      now replace (S i + k)%nat with (i + S k)%nat by lia.
    + intros N. apply I4. intros C. apply N. now right.
Qed.

(** A tick of the hover-driven variant turns every model whose panel is
    not hovered by [rotationSpeed x delta] about y and leaves the model of
    a hovered panel as it is; nothing else in the store changes, also when
    the frame then stops at the drawing. *)
Theorem hover_tick_rotation (delta : Q) (p : Hover.Page) (s : Hover.State) :
  NoDup (handles (Hover.models s)) ->
  let s' := Hover.stateOf (Hover.animate delta p s) in
  (forall k h, Hover.models s !! k = Some (Some h) ->
     Hover.store s' !! h =
       if Hover.hovered s k then Hover.store s !! h
       else Hover.spin delta (Hover.rotationSpeed s) <$> Hover.store s !! h) /\
  (forall h, Some h ∉ Hover.models s -> Hover.store s' !! h = Hover.store s !! h).
Proof.
  intros ND. cbv zeta. unfold Hover.animate. cbv zeta.
  rewrite hover_render_store. unfold Hover.rotateModels.
  change (Hover.models (Hover.set_frameRequests ?n s)) with (Hover.models s).
  split.
  - intros k h K.
    destruct (hover_rotate_loop delta h (Hover.models s) 0
                (Hover.set_frameRequests (S (Hover.frameRequests s)) s) ND)
      as (_ & _ & I3 & _).
    exact (I3 k K).
  - intros h N.
    destruct (hover_rotate_loop delta h (Hover.models s) 0
                (Hover.set_frameRequests (S (Hover.frameRequests s)) s) ND)
      as (_ & _ & _ & I4).
    exact (I4 N).
Qed.

Lemma hover_tick_rotation_witness :
  NoDup (handles (Hover.models hoverSample)) /\
  Hover.hovered hoverSample 0 = true /\
  Hover.hovered hoverSample 1 = false /\
  forall k h, Hover.models hoverSample !! k = Some (Some h) ->
    Hover.store (Hover.stateOf (Hover.animate (1 # 60) hoverDesktop hoverSample)) !! h =
      if Hover.hovered hoverSample k then Hover.store hoverSample !! h
      else Hover.spin (1 # 60) (Hover.rotationSpeed hoverSample) <$> Hover.store hoverSample !! h.
Proof.
  assert (ND : NoDup (handles (Hover.models hoverSample))).
  { apply NoDup_ListNoDup. vm_compute. repeat constructor; simpl; intuition discriminate. }
  split; [exact ND |].
  split; [vm_compute; reflexivity |]. split; [vm_compute; reflexivity |].
  exact (proj1 (hover_tick_rotation (1 # 60) hoverDesktop hoverSample ND)).
Defined.

(** ** Page bootstrap of the hover-driven variant *)

Lemma hover_create_without_panels (c : Container) (p : Hover.Page) :
  default [] (datasetPanels c) = [] ->
  Hover.threw (Hover.create c p) = true.
Proof.
  intros E. unfold Hover.create, Hover.init. cbv zeta. unfold Hover.animate. cbv zeta.
  match goal with |- context [Hover.render p ?x] =>
    destruct (hover_render_throws p x) as (s' & -> & _); [| reflexivity]
  end.
  unfold Hover.rotateModels, Hover.loadModels, Hover.setupCamera, Hover.setupScenes,
    Hover.setupRenderer, Hover.construct.
  cbn [Hover.panels Hover.set_renderer Hover.set_camera]. rewrite E. reflexivity.
Qed.

Lemma initFrom_skips (page : Hover.Page) (rest : list HoverPage.Hero) :
  forall (done : list HoverPage.Hero) i p,
    Forall (fun hero => truthy (HoverPage.initialized hero) = true) done ->
    HoverPage.initFrom page (done ++ rest) i p =
      HoverPage.initFrom page rest (i + length done) p.
Proof.
  induction done as [| hero done IH]; intros i p F; simpl.
  - now rewrite Nat.add_0_r.
  - apply Forall_cons in F as [T F]. rewrite T. simpl.
    rewrite IH by exact F. f_equal. lia.
Qed.

(** In the hover-driven variant a container without panel data stops the
    bootstrap: [initShowcases] ends with the [TypeError] of its
    constructor, the container is not marked initialised, and the
    containers after it in the document are neither marked nor given an
    instance. *)
Theorem hover_bootstrap_stops_at_empty_container (page : Hover.Page)
    (done rest : list HoverPage.Hero) (hero : HoverPage.Hero)
    (instances : list Hover.State) :
  Forall (fun h => truthy (HoverPage.initialized h) = true) done ->
  truthy (HoverPage.initialized hero) = false ->
  default [] (datasetPanels (HoverPage.container hero)) = [] ->
  let o := HoverPage.initShowcases page
             (HoverPage.mkState (done ++ hero :: rest) instances) in
  HoverPage.threw o = true /\
  HoverPage.heroes (HoverPage.stateOf o) = done ++ hero :: rest /\
  length (HoverPage.instances (HoverPage.stateOf o)) = S (length instances).
Proof.
  intros F T E. cbv zeta. unfold HoverPage.initShowcases.
  cbn [HoverPage.heroes]. rewrite initFrom_skips by exact F.
  simpl. rewrite T. simpl.
  pose proof (hover_create_without_panels (HoverPage.container hero) page E) as C.
  destruct (Hover.create (HoverPage.container hero) page); [discriminate |].
  simpl. repeat split. rewrite length_app. simpl. lia.
Qed.

Lemma hover_bootstrap_stops_at_empty_container_witness :
  HoverPage.threw (HoverPage.initShowcases hoverDesktop hoverDocument) = true /\
  HoverPage.heroes (HoverPage.stateOf (HoverPage.initShowcases hoverDesktop hoverDocument)) =
    HoverPage.heroes hoverDocument.
Proof.
  destruct (hover_bootstrap_stops_at_empty_container hoverDesktop []
              [HoverPage.mkHero sampleContainer None] (HoverPage.mkHero bareContainer None) []
              (Forall_nil_2 _) eq_refl eq_refl) as (A & B & _).
  split; [exact A | exact B].
Defined.

(** ** Projection of the first document *)

Lemma aspect_of_positive (a b : Z) :
  0 < b -> JS.div (JS.of_Z a) (JS.of_Z b) = JS.Fin (inject_Z a / inject_Z b).
Proof.
  intros B. unfold JS.div, JS.of_Z.
  destruct (Qcompare_spec (inject_Z b) 0) as [E | E | E]; try reflexivity.
  exfalso. assert (P : (0 < inject_Z b)%Q) by (now rewrite <- (Zlt_Qlt 0)). lra.
Qed.

Lemma quotients_differ (a b c d : Z) :
  0 < b -> 0 < d -> a * d <> c * b ->
  Qeq_bool (inject_Z a / inject_Z b) (inject_Z c / inject_Z d) = false.
Proof.
  intros B D N.
  destruct (Qeq_bool _ _) eqn:E; [exfalso | reflexivity].
  apply Qeq_bool_iff in E.
  assert (Pb : (0 < inject_Z b)%Q) by (now rewrite <- (Zlt_Qlt 0)).
  assert (Pd : (0 < inject_Z d)%Q) by (now rewrite <- (Zlt_Qlt 0)).
  assert (X : (inject_Z a * inject_Z d == inject_Z c * inject_Z b)%Q).
  { assert (A1 : (inject_Z a == inject_Z a / inject_Z b * inject_Z b)%Q) by (field; lra).
    assert (C1 : (inject_Z c == inject_Z c / inject_Z d * inject_Z d)%Q) by (field; lra).
    set (x := (inject_Z a / inject_Z b)%Q) in *.
    set (y := (inject_Z c / inject_Z d)%Q) in *. clearbody x y.
    rewrite A1, C1, E. ring. }
  rewrite <- !inject_Z_mult in X. apply N.
  unfold Qeq in X. simpl in X. lia.
Qed.

(** In the first document a frame never fits the projection to its
    regions: after a resize to a window of at least 2 x 2 pixels, both
    draw calls of a frame carry the projection of the whole window, which
    differs from the width over the height of their region. *)
Theorem first_document_projection_mismatch (w : Window) (s : Scroll.State)
    (sc0 sc1 : Three.Scene) :
  Scroll.scenes s = [sc0; sc1] ->
  2 <= innerWidth w ->
  2 <= innerHeight w ->
  exists d0 d1,
    Three.drawn (Scroll.renderer (Placeholder.render w (Scroll.onResize w s))) =
      Three.drawn (Scroll.renderer s) ++ [d0; d1] /\
    Three.dc_projection d0 = JS.div (JS.of_Z (innerWidth w)) (JS.of_Z (innerHeight w)) /\
    Three.dc_projection d1 = JS.div (JS.of_Z (innerWidth w)) (JS.of_Z (innerHeight w)) /\
    projectionFits d0 = false /\
    projectionFits d1 = false.
Proof.
  intros E W H.
  pose proof (placeholder_render_regions w (Scroll.onResize w s) sc0 sc1) as R.
  change (Scroll.scenes (Scroll.onResize w s)) with (Scroll.scenes s) in R.
  rewrite E in R. specialize (R eq_refl eq_refl).
  change (Scroll.isMobile (Scroll.onResize w s)) with (isMobileFor (innerWidth w)) in R.
  change (Three.drawn (Scroll.renderer (Scroll.onResize w s)))
    with (Three.drawn (Scroll.renderer s)) in R.
  change (Three.projection (Scroll.camera (Scroll.onResize w s)))
    with (JS.div (JS.of_Z (innerWidth w)) (JS.of_Z (innerHeight w))) in R.
  pose proof (half_bounds (innerWidth w)) as BW.
  pose proof (half_bounds (innerHeight w)) as BH.
  unfold regions in R.
  destruct (isMobileFor (innerWidth w)); cbv zeta in R;
    eexists; eexists; (split; [exact R |]); (split; [reflexivity |]);
    (split; [reflexivity |]);
    unfold projectionFits, regionAspect;
    cbn [Three.dc_projection Three.dc_viewport Three.rw Three.rh];
    rewrite !aspect_of_positive by lia; cbn [JS.eqb];
    split; apply quotients_differ; nia.
Qed.

Lemma first_document_projection_mismatch_witness :
  exists d0 d1,
    Three.drawn (Scroll.renderer (Placeholder.render phone (Scroll.onResize phone jumped))) =
      Three.drawn (Scroll.renderer jumped) ++ [d0; d1] /\
    projectionFits d0 = false /\ projectionFits d1 = false.
Proof.
  destruct (first_document_projection_mismatch phone jumped
              (Three.sceneAdd (Three.ModelRef 0) (newScene Placeholder.lightRig (mkPanel "#1E90FF" "kosher")))
              (Three.sceneAdd (Three.ModelRef 1) (newScene Placeholder.lightRig (mkPanel "#FF4500" "nonkosher"))))
    as (d0 & d1 & D & _ & _ & F0 & F1).
  - vm_compute. reflexivity.
  - simpl. lia.
  - simpl. lia.
  - exists d0, d1. auto.
Defined.

(** ** Witnesses of the frame lemmas *)

Lemma hover_tick_always_draws_witness :
  Hover.threw (Hover.animate (1 # 60) hoverDesktop hoverSample) = false /\
  length (Three.drawn (Hover.renderer
            (Hover.stateOf (Hover.animate (1 # 60) hoverDesktop hoverSample)))) =
    (length (Three.drawn (Hover.renderer hoverSample)) + 2)%nat.
Proof.
  apply (hover_tick_always_draws (1 # 60) hoverDesktop hoverSample
           (Three.sceneAdd (Three.ModelRef 0)
              (newScene Hover.lightRig (mkPanel "#1E90FF" "kosher")))
           (Three.sceneAdd (Three.ModelRef 1)
              (newScene Hover.lightRig (mkPanel "#FF4500" "nonkosher")))).
  vm_compute. reflexivity.
Defined.

Lemma loader_render_projection_witness :
  Three.mkDraw 0 (Three.mkRect 0 400 375 400) (Three.mkRect 0 400 375 400) true
      (JS.Fin (375 # 400)) ∈
    Three.drawn (Scroll.renderer
      (Scroll.onResize phone (Loader.create sampleContainer desktop))) \/
  Three.dc_projection
    (Three.mkDraw 0 (Three.mkRect 0 400 375 400) (Three.mkRect 0 400 375 400) true
       (JS.Fin (375 # 400))) =
  regionAspect
    (Three.dc_viewport
       (Three.mkDraw 0 (Three.mkRect 0 400 375 400) (Three.mkRect 0 400 375 400) true
          (JS.Fin (375 # 400)))).
Proof.
  apply (loader_render_projection phone
           (Scroll.onResize phone (Loader.create sampleContainer desktop))).
  apply list_elem_of_lookup_2 with 2%nat. vm_compute. reflexivity.
Defined.

Lemma scroll_render_skips_second_witness :
  exists a,
    Three.drawn (Scroll.renderer
      (renderOf First desktop (Placeholder.create singleContainer desktop))) =
    Three.drawn (Scroll.renderer (Placeholder.create singleContainer desktop)) ++
      [Three.mkDraw 0
         (regions (Scroll.isMobile (Placeholder.create singleContainer desktop))
            (innerWidth desktop) (innerHeight desktop)).1
         (regions (Scroll.isMobile (Placeholder.create singleContainer desktop))
            (innerWidth desktop) (innerHeight desktop)).1 true a].
Proof.
  apply (scroll_render_skips_second First desktop (Placeholder.create singleContainer desktop)
           (Three.sceneAdd (Three.ModelRef 0)
              (newScene Placeholder.lightRig (mkPanel "#1E90FF" "kosher")))).
  vm_compute. reflexivity.
Defined.
